(** * The example ETL workflow of [hello_world.py]

    A shallow embedding of the five task functions of the workflow
    [example_task_decorator_dag] (extract, transform, validate, load,
    notify) and of the calls that wire them, followed by the properties
    the specification states about them.

    Python objects live in a store: dictionaries and lists are allocated,
    referred to by location and updated in place, so that aliasing and the
    absence of writes to a caller's objects can be stated.  Every function
    is a computation over a world (store, log, clock) that returns a value
    or raises a Python exception. *)

From Stdlib Require Import ZArith String Ascii DecimalString Lia.
From stdpp Require Import base option list strings.

Local Open Scope string_scope.
Local Open Scope list_scope.

(** ** Strings *)

(** Characters are Rocq's 8-bit [ascii]; the model covers ASCII text, on
    which [str.upper] changes exactly the letters a to z.  Outside ASCII
    Python's [str.upper] does more (it can change the length of a text);
    what is proved of an uppercased text beyond its being [upper] of the
    input is stated for ASCII text. *)
Module Str.

Definition nl : string := String "010"%char EmptyString.

Definition upper_char (c : ascii) : ascii :=
  let n := N_of_ascii c in
  if ((97 <=? n) && (n <=? 122))%N then ascii_of_N (n - 32) else c.

(** [s.upper()] *)
Fixpoint upper (s : string) : string :=
  match s with
  | EmptyString => EmptyString
  | String c s' => String (upper_char c) (upper s')
  end.

(** [s.split(sep)] for a one-character separator: every occurrence of
    [sep] ends a segment; the result is never empty. *)
Fixpoint split (sep : ascii) (s : string) : list string :=
  match s with
  | EmptyString => [EmptyString]
  | String c s' =>
      if Ascii.eqb c sep then EmptyString :: split sep s'
      else match split sep s' with
           | [] => [String c EmptyString]
           | seg :: segs => String c seg :: segs
           end
  end.

(** [sep in s] *)
Fixpoint contains (sep : ascii) (s : string) : bool :=
  match s with
  | EmptyString => false
  | String c s' => Ascii.eqb c sep || contains sep s'
  end.

(** Number of occurrences of a character. *)
Fixpoint count (sep : ascii) (s : string) : nat :=
  match s with
  | EmptyString => 0
  | String c s' => (if Ascii.eqb c sep then 1 else 0) + count sep s'
  end.

(** The text after the first occurrence of [sep], if there is one. *)
Fixpoint after (sep : ascii) (s : string) : option string :=
  match s with
  | EmptyString => None
  | String c s' => if Ascii.eqb c sep then Some s' else after sep s'
  end.

(** The text after the last occurrence of [sep], if there is one. *)
Fixpoint after_last (sep : ascii) (s : string) : option string :=
  match s with
  | EmptyString => None
  | String c s' =>
      match after_last sep s' with
      | Some r => Some r
      | None => if Ascii.eqb c sep then Some s' else None
      end
  end.

(** The text before the first occurrence of [sep]; all of [s] without one. *)
Fixpoint before (sep : ascii) (s : string) : string :=
  match s with
  | EmptyString => EmptyString
  | String c s' => if Ascii.eqb c sep then EmptyString else String c (before sep s')
  end.

(** [str(n)] for an integer. *)
Definition of_Z (n : Z) : string := NilZero.string_of_int (Z.to_int n).

Fixpoint join (sep : string) (l : list string) : string :=
  match l with
  | [] => ""
  | [s] => s
  | s :: l' => s +:+ sep +:+ join sep l'
  end.

Definition hex_digit (n : N) : ascii :=
  if (n <? 10)%N then ascii_of_N (48 + n) else ascii_of_N (87 + n).

Definition squote : ascii := "039"%char.
Definition dquote : ascii := "034"%char.
Definition backslash : ascii := "092"%char.

Definition of_char (c : ascii) : string := String c EmptyString.

(** One character of [repr(s)], inside the quote [q]. *)
Definition repr_char (q c : ascii) : string :=
  let n := N_of_ascii c in
  if Ascii.eqb c backslash then String backslash (of_char backslash)
  else if Ascii.eqb c q then String backslash (of_char q)
  else if (n =? 9)%N then String backslash "t"
  else if (n =? 10)%N then String backslash "n"
  else if (n =? 13)%N then String backslash "r"
  else if ((n <? 32) || (n =? 127))%N
       then String backslash (String "x" (String (hex_digit (n / 16)) (of_char (hex_digit (n mod 16)))))
  else of_char c.

Fixpoint repr_body (q : ascii) (s : string) : string :=
  match s with
  | EmptyString => EmptyString
  | String c s' => repr_char q c +:+ repr_body q s'
  end.

(** [repr(s)]: single quotes, unless [s] has a single quote and no double
    quote. *)
Definition repr (s : string) : string :=
  let q := if contains squote s && negb (contains dquote s) then dquote else squote in
  of_char q +:+ repr_body q s +:+ of_char q.

End Str.

(** ** Values, objects and the store *)

Abbreviation loc := nat.

(** Immutable values are held directly; a dictionary or a list is a
    reference into the store. *)
Inductive value : Type :=
  | VNone
  | VBool (b : bool)
  | VInt (n : Z)
  | VStr (s : string)
  | VRef (l : loc).

(** A dictionary keeps its keys in insertion order; all keys of this
    program are strings. *)
Inductive obj : Type :=
  | ODict (d : list (string * value))
  | OList (xs : list value).

Inductive level : Type := INFO | WARNING.

(** The world: the store, the calls made to [logging] so far, and the
    clock, given as the text [datetime.now().isoformat()] yields at each
    reading together with the number of readings made. *)
Record world : Type := mkWorld {
  heap : list obj;
  log : list (level * string);
  clock : nat -> string;
  ticks : nat
}.

(** [InvalidRef] is no Python exception: it is the outcome of using a
    reference that points outside the store, which no Python program
    holds. *)
Inductive exn : Type :=
  | KeyError (k : string)
  | IndexError
  | TypeError
  | AttributeError
  | InvalidRef.

Inductive result (A : Type) : Type :=
  | Ok (a : A)
  | Raise (e : exn).
Arguments Ok {A} a.
Arguments Raise {A} e.

Definition M (A : Type) : Type := world -> result A * world.

Definition ret {A} (a : A) : M A := fun w => (Ok a, w).
Definition raise {A} (e : exn) : M A := fun w => (Raise e, w).
Definition bind {A B} (m : M A) (k : A -> M B) : M B :=
  fun w => match m w with
           | (Ok a, w') => k a w'
           | (Raise e, w') => (Raise e, w')
           end.

Notation "'let!' x ':=' m 'in' k" := (bind m (fun x => k))
  (at level 10, x name, m at level 100, k at level 200).
Notation "m ';;' k" := (bind m (fun _ => k))
  (at level 100, k at level 200, right associativity).

(** ** Dictionaries as ordered association lists *)

Fixpoint dict_lookup (d : list (string * value)) (k : string) : option value :=
  match d with
  | [] => None
  | (k', v) :: d' => if String.eqb k' k then Some v else dict_lookup d' k
  end.

(** [d[k] = v]: an existing key keeps its place, a new one goes last. *)
Fixpoint dict_store (d : list (string * value)) (k : string) (v : value)
  : list (string * value) :=
  match d with
  | [] => [(k, v)]
  | (k', v') :: d' =>
      if String.eqb k' k then (k', v) :: d' else (k', v') :: dict_store d' k v
  end.

(** ** Formatting *)

(** [repr(v)].  A container that is reached again while it is being
    printed is abbreviated, as CPython does; [fuel] bounds the nesting
    depth and a store of [n] objects never needs more than [n + 1]. *)
Fixpoint repr (fuel : nat) (h : list obj) (seen : list loc) (v : value) : string :=
  match v with
  | VNone => "None"
  | VBool true => "True"
  | VBool false => "False"
  | VInt n => Str.of_Z n
  | VStr s => Str.repr s
  | VRef l =>
      match fuel with
      | O => "..."
      | S fuel' =>
          match h !! l with
          | Some (OList xs) =>
              if existsb (Nat.eqb l) seen then "[...]"
              else "[" +:+ Str.join ", " (map (repr fuel' h (l :: seen)) xs) +:+ "]"
          | Some (ODict d) =>
              if existsb (Nat.eqb l) seen then "{...}"
              else "{" +:+ Str.join ", "
                     (map (fun kv => Str.repr (fst kv) +:+ ": "
                                     +:+ repr fuel' h (l :: seen) (snd kv)) d)
                   +:+ "}"
          | None => "<invalid>"
          end
      end
  end.

(** [str(v)], which is what [{v}] in an f-string inserts. *)
Definition str_of (h : list obj) (v : value) : string :=
  match v with
  | VStr s => s
  | _ => repr (S (length h)) h [] v
  end.

(** ** Primitive operations *)

Definition set_heap (h : list obj) (w : world) : world :=
  mkWorld h (log w) (clock w) (ticks w).

(** Evaluating a list display or a dictionary display allocates. *)
Definition alloc (o : obj) : M value :=
  fun w => (Ok (VRef (length (heap w))), set_heap (heap w ++ [o]) w).

Definition new_list (xs : list value) : M value := alloc (OList xs).
Definition new_dict (d : list (string * value)) : M value := alloc (ODict d).

(** [logging.info(msg)] and [logging.warning(msg)]: the call is recorded. *)
Definition logging (lv : level) (msg : string) : M unit :=
  fun w => (Ok tt, mkWorld (heap w) (log w ++ [(lv, msg)]) (clock w) (ticks w)).

(** [datetime.now().isoformat()] *)
Definition now_isoformat : M value :=
  fun w => (Ok (VStr (clock w (ticks w))),
            mkWorld (heap w) (log w) (clock w) (S (ticks w))).

(** [str(v)] inside an f-string. *)
Definition format (v : value) : M string :=
  fun w => (Ok (str_of (heap w) v), w).

(** [v[k]] for a string key [k]. *)
Definition subscript (v : value) (k : string) : M value :=
  fun w =>
    match v with
    | VRef l =>
        match heap w !! l with
        | Some (ODict d) =>
            match dict_lookup d k with
            | Some x => (Ok x, w)
            | None => (Raise (KeyError k), w)
            end
        | Some (OList _) => (Raise TypeError, w)
        | None => (Raise InvalidRef, w)
        end
    | _ => (Raise TypeError, w)
    end.

(** [v.get(k)]: only a dictionary has the method. *)
Definition get (v : value) (k : string) : M value :=
  fun w =>
    match v with
    | VRef l =>
        match heap w !! l with
        | Some (ODict d) => (Ok (default VNone (dict_lookup d k)), w)
        | Some (OList _) => (Raise AttributeError, w)
        | None => (Raise InvalidRef, w)
        end
    | _ => (Raise AttributeError, w)
    end.

(** [v[k] = x] *)
Definition store (v : value) (k : string) (x : value) : M unit :=
  fun w =>
    match v with
    | VRef l =>
        match heap w !! l with
        | Some (ODict d) =>
            (Ok tt, set_heap (<[l := ODict (dict_store d k x)]> (heap w)) w)
        | Some (OList _) => (Raise TypeError, w)
        | None => (Raise InvalidRef, w)
        end
    | _ => (Raise TypeError, w)
    end.

(** [v.append(x)]: only a list has the method. *)
Definition append (v x : value) : M unit :=
  fun w =>
    match v with
    | VRef l =>
        match heap w !! l with
        | Some (OList xs) =>
            (Ok tt, set_heap (<[l := OList (xs ++ [x])]> (heap w)) w)
        | Some (ODict _) => (Raise AttributeError, w)
        | None => (Raise InvalidRef, w)
        end
    | _ => (Raise AttributeError, w)
    end.

(** [len(v)] *)
Definition len (v : value) : M value :=
  fun w =>
    match v with
    | VStr s => (Ok (VInt (Z.of_nat (String.length s))), w)
    | VRef l =>
        match heap w !! l with
        | Some (OList xs) => (Ok (VInt (Z.of_nat (length xs))), w)
        | Some (ODict d) => (Ok (VInt (Z.of_nat (length d))), w)
        | None => (Raise InvalidRef, w)
        end
    | _ => (Raise TypeError, w)
    end.

Fixpoint chars (s : string) : list value :=
  match s with
  | EmptyString => []
  | String c s' => VStr (Str.of_char c) :: chars s'
  end.

(** The elements [for x in v] visits: those of a list, the keys of a
    dictionary, the characters of a string.  The elements are taken when
    the loop starts; the loops of this program write only to objects made
    by the call that runs them, never to the collection they visit. *)
Definition iterate (v : value) : M (list value) :=
  fun w =>
    match v with
    | VStr s => (Ok (chars s), w)
    | VRef l =>
        match heap w !! l with
        | Some (OList xs) => (Ok xs, w)
        | Some (ODict d) => (Ok (map (fun kv => VStr (fst kv)) d), w)
        | None => (Raise InvalidRef, w)
        end
    | _ => (Raise TypeError, w)
    end.

Fixpoint for_each (xs : list value) (body : value -> M unit) : M unit :=
  match xs with
  | [] => ret tt
  | x :: xs' => body x;; for_each xs' body
  end.

(** Truth value of [v], as [not v] and [if v] test it. *)
Definition truthy (v : value) : M bool :=
  fun w =>
    match v with
    | VNone => (Ok false, w)
    | VBool b => (Ok b, w)
    | VInt n => (Ok (negb (Z.eqb n 0)), w)
    | VStr s => (Ok (negb (String.eqb s "")), w)
    | VRef l =>
        match heap w !! l with
        | Some (OList xs) => (Ok (negb (Nat.eqb (length xs) 0)), w)
        | Some (ODict d) => (Ok (negb (Nat.eqb (length d) 0)), w)
        | None => (Raise InvalidRef, w)
        end
    end.

(** The integer a number stands for ([True] is 1, [False] is 0). *)
Definition as_int (v : value) : option Z :=
  match v with
  | VInt n => Some n
  | VBool b => Some (if b then 1%Z else 0%Z)
  | _ => None
  end.

(** [v > n] for an integer [n]. *)
Definition greater (v : value) (n : Z) : M bool :=
  match as_int v with
  | Some m => ret (Z.ltb n m)
  | None => raise TypeError
  end.

(** [v + n] for an integer [n]. *)
Definition add (v : value) (n : Z) : M value :=
  match as_int v with
  | Some m => ret (VInt (m + n))
  | None => raise TypeError
  end.

(** [v[k] += n] *)
Definition increment (v : value) (k : string) (n : Z) : M unit :=
  let! old := subscript v k in
  let! new := add old n in
  store v k new.

(** [v.upper()]: only a string has the method. *)
Definition str_upper (v : value) : M value :=
  match v with
  | VStr s => ret (VStr (Str.upper s))
  | _ => raise AttributeError
  end.

(** [v.split('@')[1]]: the list [split] makes is indexed at once and never
    stored, so it is kept as a Rocq list instead of being allocated. *)
Definition str_split_second (v : value) : M value :=
  match v with
  | VStr s =>
      match Str.split "@" s !! 1%nat with
      | Some seg => ret (VStr seg)
      | None => raise IndexError
      end
  | _ => raise AttributeError
  end.

(** ** The five tasks

    The task decorator and the engine that runs the tasks are not part of
    the repository: a task is modelled by the Python function the
    decorator wraps.  It takes the list of its positional arguments; a
    call with another number of arguments than the [def] has parameters
    raises [TypeError] before the body runs. *)

Definition extract_data (args : list value) : M value :=
  match args with
  | [] =>
      logging INFO "Starting data extraction...";;
      let! alice := new_dict [("id", VInt 1); ("name", VStr "Alice");
                              ("email", VStr "alice@example.com")] in
      let! bob := new_dict [("id", VInt 2); ("name", VStr "Bob");
                            ("email", VStr "bob@example.com")] in
      let! charlie := new_dict [("id", VInt 3); ("name", VStr "Charlie");
                                ("email", VStr "charlie@example.com")] in
      let! users := new_list [alice; bob; charlie] in
      let! data := new_dict [("users", users)] in
      let! us := subscript data "users" in
      let! n := len us in
      let! sn := format n in
      logging INFO ("Extracted " +:+ sn +:+ " user records");;
      ret data
  | _ => raise TypeError
  end.

(** The dictionary display of the loop body of [transform_data]. *)
Definition transform_user (user : value) : M value :=
  let! uid := subscript user "id" in
  let! name := subscript user "name" in
  let! full_name := str_upper name in
  let! email := subscript user "email" in
  let! email_domain := str_split_second email in
  let! processed_at := now_isoformat in
  new_dict [("user_id", uid); ("full_name", full_name);
            ("email_domain", email_domain); ("processed_at", processed_at)].

(** The loop body of [transform_data]. *)
Definition transform_step (transformed_users user : value) : M unit :=
  let! transformed_user := transform_user user in
  append transformed_users transformed_user.

Definition transform_data (args : list value) : M value :=
  match args with
  | [raw_data] =>
      logging INFO "Starting data transformation...";;
      let! transformed_users := new_list [] in
      let! users := subscript raw_data "users" in
      let! users := iterate users in
      for_each users (transform_step transformed_users);;
      let! result := new_dict [("transformed_users", transformed_users)] in
      let! n := len transformed_users in
      let! sn := format n in
      logging INFO ("Transformed " +:+ sn +:+ " user records");;
      ret result
  | _ => raise TypeError
  end.

(** [not a or not b], with [b] evaluated only when [a] is true. *)
Definition missing_required (user : value) : M bool :=
  let! uid := get user "user_id" in
  let! has_uid := truthy uid in
  if negb has_uid then ret true
  else
    let! full_name := get user "full_name" in
    let! has_name := truthy full_name in
    ret (negb has_name).

(** The loop body of [validate_data]. *)
Definition validate_user (validation_results user : value) : M unit :=
  let is_valid := true in
  let! missing := missing_required user in
  let! is_valid :=
    (if missing then
       let! errors := subscript validation_results "validation_errors" in
       let! su := format user in
       append errors (VStr ("Missing required fields for user: " +:+ su));;
       ret false
     else ret is_valid) in
  let! domain := get user "email_domain" in
  let! has_domain := truthy domain in
  let! is_valid :=
    (if negb has_domain then
       let! errors := subscript validation_results "validation_errors" in
       let! uid := subscript user "user_id" in
       let! su := format uid in
       append errors (VStr ("Missing email domain for user: " +:+ su));;
       ret false
     else ret is_valid) in
  if is_valid then increment validation_results "valid_records" 1
  else increment validation_results "invalid_records" 1.

Definition validate_data (args : list value) : M value :=
  match args with
  | [transformed_data] =>
      logging INFO "Starting data validation...";;
      let! users := subscript transformed_data "transformed_users" in
      let! total := len users in
      let! errors := new_list [] in
      let! validation_results :=
        new_dict [("total_records", total); ("valid_records", VInt 0);
                  ("invalid_records", VInt 0); ("validation_errors", errors)] in
      let! users := iterate users in
      for_each users (validate_user validation_results);;
      let! valid := subscript validation_results "valid_records" in
      let! sv := format valid in
      let! invalid := subscript validation_results "invalid_records" in
      let! si := format invalid in
      logging INFO ("Validation complete: " +:+ sv +:+ " valid, "
                    +:+ si +:+ " invalid records");;
      ret validation_results
  | _ => raise TypeError
  end.

Definition load_data (args : list value) : M value :=
  match args with
  | [transformed_data; validation_results] =>
      logging INFO "Starting data loading...";;
      let! invalid := subscript validation_results "invalid_records" in
      let! some_invalid := greater invalid 0 in
      (if some_invalid then
         let! invalid := subscript validation_results "invalid_records" in
         let! si := format invalid in
         logging WARNING ("Found " +:+ si +:+ " invalid records");;
         let! errors := subscript validation_results "validation_errors" in
         let! errors := iterate errors in
         for_each errors (fun error =>
           let! se := format error in
           logging WARNING ("Validation error: " +:+ se))
       else ret tt);;
      let! users_to_load := subscript transformed_data "transformed_users" in
      let! n := len users_to_load in
      let! load_timestamp := now_isoformat in
      let! loading_summary :=
        new_dict [("records_processed", n); ("load_timestamp", load_timestamp);
                  ("status", VStr "completed")] in
      let! n := len users_to_load in
      let! sn := format n in
      logging INFO ("Successfully loaded " +:+ sn +:+ " records");;
      ret loading_summary
  | _ => raise TypeError
  end.

(** The text of the f-string of [send_notification], with its line breaks
    and its indentation of eight blanks. *)
Definition notification_message (processed valid invalid time status : string) : string :=
  Str.nl +:+ "        ETL Pipeline Completed Successfully!"
  +:+ Str.nl +:+ "        "
  +:+ Str.nl +:+ "        Summary:"
  +:+ Str.nl +:+ "        - Records processed: " +:+ processed
  +:+ Str.nl +:+ "        - Valid records: " +:+ valid
  +:+ Str.nl +:+ "        - Invalid records: " +:+ invalid
  +:+ Str.nl +:+ "        - Completion time: " +:+ time
  +:+ Str.nl +:+ "        - Status: " +:+ status
  +:+ Str.nl +:+ "        ".

Definition send_notification (args : list value) : M value :=
  match args with
  | [loading_summary; validation_results] =>
      logging INFO "Sending completion notification...";;
      let! processed := subscript loading_summary "records_processed" in
      let! sp := format processed in
      let! valid := subscript validation_results "valid_records" in
      let! sv := format valid in
      let! invalid := subscript validation_results "invalid_records" in
      let! si := format invalid in
      let! time := subscript loading_summary "load_timestamp" in
      let! st := format time in
      let! status := subscript loading_summary "status" in
      let! ss := format status in
      logging INFO (notification_message sp sv si st ss);;
      ret (VStr "Notification sent successfully")
  | _ => raise TypeError
  end.

(** ** The wiring of the workflow

    The five calls at the end of the file declare the workflow; each
    result is passed on to the calls that name it.  A run is modelled by
    making the calls in the order of the file, which is the order of the
    data dependencies.  [notify_arguments] is the argument list of the
    last call as the source writes it. *)

Definition notify_arguments (loading_summary validate_data_res : value) : list value :=
  [loading_summary].

(** The first four calls; their results are the variables the file binds. *)
Definition dag_upstream : M (value * value * value * value) :=
  let! raw_data_res := extract_data [] in
  let! transformed_data_res := transform_data [raw_data_res] in
  let! validate_data_res := validate_data [transformed_data_res] in
  let! loading_summary := load_data [transformed_data_res; validate_data_res] in
  ret (raw_data_res, transformed_data_res, validate_data_res, loading_summary).

Definition dag : M value :=
  let! res := dag_upstream in
  let '(_, _, validate_data_res, loading_summary) := res in
  send_notification (notify_arguments loading_summary validate_data_res).

(** The world a run starts from: nothing allocated, nothing logged. *)
Definition init (ck : nat -> string) : world := mkWorld [] [] ck 0.

Definition sample_clock (n : nat) : string := "2024-01-01T00:00:0" +:+ Str.of_Z (Z.of_nat n).

(** ** The data model, read back from the store

    The records of the data model, and the functions that read one from
    the store: a dictionary with the fields of the record, each of the
    type the data model gives it (other keys, and the order of the keys,
    are free). *)

Module Data.

Record raw_user : Type := mk_raw_user {
  id : Z;
  name : string;
  email : string
}.

Record transformed_user : Type := mk_transformed_user {
  user_id : Z;
  full_name : string;
  email_domain : string;
  processed_at : string
}.

Record validation_results : Type := mk_validation_results {
  total_records : Z;
  valid_records : Z;
  invalid_records : Z;
  validation_errors : list string
}.

Record loading_summary : Type := mk_loading_summary {
  records_processed : Z;
  load_timestamp : string;
  status : string
}.

End Data.

Definition read_dict (h : list obj) (v : value) : option (list (string * value)) :=
  match v with
  | VRef l => match h !! l with Some (ODict d) => Some d | _ => None end
  | _ => None
  end.

Definition read_list (h : list obj) (v : value) : option (list value) :=
  match v with
  | VRef l => match h !! l with Some (OList xs) => Some xs | _ => None end
  | _ => None
  end.

Definition read_int (v : value) : option Z :=
  match v with VInt n => Some n | _ => None end.

Definition read_str (v : value) : option string :=
  match v with VStr s => Some s | _ => None end.

Definition field_int (d : list (string * value)) (k : string) : option Z :=
  dict_lookup d k ≫= read_int.

Definition field_str (d : list (string * value)) (k : string) : option string :=
  dict_lookup d k ≫= read_str.

Definition read_raw_user (h : list obj) (v : value) : option Data.raw_user :=
  d ← read_dict h v;
  i ← field_int d "id";
  n ← field_str d "name";
  e ← field_str d "email";
  Some (Data.mk_raw_user i n e).

Definition read_transformed_user (h : list obj) (v : value)
  : option Data.transformed_user :=
  d ← read_dict h v;
  i ← field_int d "user_id";
  n ← field_str d "full_name";
  e ← field_str d "email_domain";
  t ← field_str d "processed_at";
  Some (Data.mk_transformed_user i n e t).

(** The list a dictionary holds under [k]. *)
Definition read_collection (h : list obj) (v : value) (k : string) : option (list value) :=
  d ← read_dict h v;
  c ← dict_lookup d k;
  read_list h c.

(** The output of Extract: [{'users': [...]}]. *)
Definition read_raw_data (h : list obj) (v : value) : option (list Data.raw_user) :=
  read_collection h v "users" ≫= mapM (read_raw_user h).

(** The output of Transform: [{'transformed_users': [...]}]. *)
Definition read_transformed_data (h : list obj) (v : value)
  : option (list Data.transformed_user) :=
  read_collection h v "transformed_users" ≫= mapM (read_transformed_user h).

Definition read_validation_results (h : list obj) (v : value)
  : option Data.validation_results :=
  d ← read_dict h v;
  t ← field_int d "total_records";
  a ← field_int d "valid_records";
  b ← field_int d "invalid_records";
  es ← read_collection h v "validation_errors" ≫= mapM read_str;
  Some (Data.mk_validation_results t a b es).

Definition read_loading_summary (h : list obj) (v : value)
  : option Data.loading_summary :=
  d ← read_dict h v;
  n ← field_int d "records_processed";
  t ← field_str d "load_timestamp";
  s ← field_str d "status";
  Some (Data.mk_loading_summary n t s).

(** ** What the tasks compute, on the data model *)

Definition sample_users : list Data.raw_user :=
  [Data.mk_raw_user 1 "Alice" "alice@example.com";
   Data.mk_raw_user 2 "Bob" "bob@example.com";
   Data.mk_raw_user 3 "Charlie" "charlie@example.com"].

(** The second segment of [email.split('@')], for an email with an '@':
    the text between the first '@' and the next one, or the end. *)
Definition second_segment (email : string) : string :=
  Str.before "@" (default "" (Str.after "@" email)).

Definition transformed_of (u : Data.raw_user) (now : string) : Data.transformed_user :=
  Data.mk_transformed_user (Data.id u) (Str.upper (Data.name u))
                           (second_segment (Data.email u)) now.

Definition has_at (u : Data.raw_user) : bool := Str.contains "@" (Data.email u).

(** The two tests of Validate: each looks at the truth value of a field. *)
Definition lacks_required (t : Data.transformed_user) : bool :=
  Z.eqb (Data.user_id t) 0 || String.eqb (Data.full_name t) "".

Definition lacks_domain (t : Data.transformed_user) : bool :=
  String.eqb (Data.email_domain t) "".

Definition is_valid (t : Data.transformed_user) : bool :=
  negb (lacks_required t) && negb (lacks_domain t).

(** The messages Validate appends for one record; [shown] is the text of
    the record's dictionary. *)
Definition messages (shown : string) (t : Data.transformed_user) : list string :=
  (if lacks_required t then ["Missing required fields for user: " +:+ shown] else [])
  ++ (if lacks_domain t
      then ["Missing email domain for user: " +:+ Str.of_Z (Data.user_id t)]
      else []).

Definition count_valid (ts : list Data.transformed_user) : Z :=
  Z.of_nat (length (List.filter is_valid ts)).

Definition count_invalid (ts : list Data.transformed_user) : Z :=
  Z.of_nat (length (List.filter (fun t => negb (is_valid t)) ts)).

(** The objects the tasks allocate, as functions of the data they hold. *)

Definition sample_objects (n : nat) : list obj :=
  [ODict [("id", VInt 1); ("name", VStr "Alice"); ("email", VStr "alice@example.com")];
   ODict [("id", VInt 2); ("name", VStr "Bob"); ("email", VStr "bob@example.com")];
   ODict [("id", VInt 3); ("name", VStr "Charlie"); ("email", VStr "charlie@example.com")];
   OList [VRef (n + 0); VRef (n + 1); VRef (n + 2)];
   ODict [("users", VRef (n + 3))]].

Definition transformed_obj (t : Data.transformed_user) : obj :=
  ODict [("user_id", VInt (Data.user_id t)); ("full_name", VStr (Data.full_name t));
         ("email_domain", VStr (Data.email_domain t));
         ("processed_at", VStr (Data.processed_at t))].

(** The transformed records of a run that starts reading the clock at
    its [tk]-th reading. *)
Fixpoint transformed_from (ck : nat -> string) (tk : nat) (us : list Data.raw_user)
  : list Data.transformed_user :=
  match us with
  | [] => []
  | u :: us' => transformed_of u (ck tk) :: transformed_from ck (S tk) us'
  end.

(** The references to [n] objects allocated in a row from [base] on. *)
Definition refs (base n : nat) : list value := map VRef (seq base n).

(** The store Transform leaves: the list of the new records, the records,
    and the dictionary that is returned. *)
Definition transform_objects (n : nat) (ts : list Data.transformed_user) : list obj :=
  OList (refs (n + 1) (length ts)) :: map transformed_obj ts
  ++ [ODict [("transformed_users", VRef (n + 0))]].

Definition validation_obj (n : nat) (total : value) (valid invalid : Z) : obj :=
  ODict [("total_records", total); ("valid_records", VInt valid);
         ("invalid_records", VInt invalid); ("validation_errors", VRef n)].

(** The two objects Validate allocates: the list of error messages and
    the dictionary of the results, which holds a reference to the list. *)
Definition validation_store (n : nat) (errs : list value) (total : value)
           (valid invalid : Z) : list obj :=
  [OList errs; validation_obj n total valid invalid].

Definition bool_Z (b : bool) : Z := if b then 1%Z else 0%Z.

(** What Load allocates and what it logs. *)
Definition summary_obj (n : Z) (now : string) : obj :=
  ODict [("records_processed", VInt n); ("load_timestamp", VStr now);
         ("status", VStr "completed")].

Definition load_warnings (r : Data.validation_results) : list (level * string) :=
  if Z.ltb 0 (Data.invalid_records r)
  then (WARNING, "Found " +:+ Str.of_Z (Data.invalid_records r) +:+ " invalid records")
       :: map (fun e => (WARNING, "Validation error: " +:+ e)) (Data.validation_errors r)
  else [].

Definition load_log (r : Data.validation_results) (n : nat) : list (level * string) :=
  (INFO, "Starting data loading...") :: load_warnings r
  ++ [(INFO, "Successfully loaded " +:+ Str.of_Z (Z.of_nat n) +:+ " records")].

Definition notify_log (s : Data.loading_summary) (r : Data.validation_results)
  : list (level * string) :=
  [(INFO, "Sending completion notification...");
   (INFO, notification_message (Str.of_Z (Data.records_processed s))
            (Str.of_Z (Data.valid_records r)) (Str.of_Z (Data.invalid_records r))
            (Data.load_timestamp s) (Data.status s))].

(** Computations that leave the store as it is, and computations that
    only add objects to it. *)
Definition keeps_store {A} (m : M A) : Prop :=
  forall w, heap (snd (m w)) = heap w.

Definition extends_store {A} (m : M A) : Prop :=
  forall w, heap w `prefix_of` heap (snd (m w)).

(** Computations that only read: the world they leave is the one they
    found. *)
Definition reads {A} (m : M A) : Prop := forall w, snd (m w) = w.

(** Computations whose result, when there is one, is [a]; and
    computations whose result is a reference to an object that was not in
    the store before. *)
Definition returns {A} (a : A) (m : M A) : Prop :=
  forall w v w', m w = (Ok v, w') -> v = a.

Definition returns_fresh (m : M value) : Prop :=
  forall w v w', m w = (Ok v, w') ->
    exists l, v = VRef l /\ length (heap w) <= l.

(** The world is that of a run of Validate between two iterations. *)
Definition validating (h : list obj) (total : value) (lg : list (level * string))
           (ck : nat -> string) (tk : nat) (w : world) : Prop :=
  exists errs a b,
    w = mkWorld (h ++ validation_store (length h + 0) errs total a b) lg ck tk.

(** ** Sample worlds

    Stores on which the tasks are run in the examples below. *)

(** The world the four upstream tasks leave when the workflow is run from
    the initial world: raw data at 4, transformed data at 9, validation
    results at 11, loading summary at 12. *)
Definition sample_world : world := snd (dag_upstream (init sample_clock)).

(** A store that holds transformed data with the given records: the
    records, their list, and the dictionary at [length ts + 1]. *)
Definition world_of_transformed (ts : list Data.transformed_user) : world :=
  mkWorld (map transformed_obj ts
           ++ [OList (refs 0 (length ts));
               ODict [("transformed_users", VRef (length ts))]])
          [] sample_clock 0.

(** Raw data with one record, whose email has two '@'. *)
Definition two_at_world : world :=
  mkWorld [ODict [("id", VInt 7); ("name", VStr "Eve");
                  ("email", VStr "eve@mail@example.com")];
           OList [VRef 0];
           ODict [("users", VRef 1)]]
          [] sample_clock 0.

(** Transformed records that fail the tests of Validate although every
    field is present. *)
Definition falsy_records : list Data.transformed_user :=
  [Data.mk_transformed_user 0 "ZOE" "example.com" "2024-01-01T00:00:00";
   Data.mk_transformed_user 5 "" "example.com" "2024-01-01T00:00:01";
   Data.mk_transformed_user 6 "MAX" "" "2024-01-01T00:00:02";
   Data.mk_transformed_user 8 "ANN" "example.com" "2024-01-01T00:00:03"].

(** The world Validate leaves on [falsy_records] (validation results at
    7), and the results it reports there. *)
Definition validated_world : world :=
  snd (validate_data [VRef 5] (world_of_transformed falsy_records)).

Definition falsy_results : Data.validation_results :=
  Data.mk_validation_results 4 1 3
    ["Missing required fields for user: {'user_id': 0, 'full_name': 'ZOE', "
       +:+ "'email_domain': 'example.com', 'processed_at': '2024-01-01T00:00:00'}";
     "Missing required fields for user: {'user_id': 5, 'full_name': '', "
       +:+ "'email_domain': 'example.com', 'processed_at': '2024-01-01T00:00:01'}";
     "Missing email domain for user: 6"].

(** Outside the data model: transformed data whose only record has
    neither identifier nor email domain. *)
Definition partial_world : world :=
  mkWorld [ODict [("full_name", VStr "NOID")];
           OList [VRef 0];
           ODict [("transformed_users", VRef 1)]]
          [] sample_clock 0.

(** Raw data whose only record has an email without '@'. *)
Definition no_at_world : world :=
  mkWorld [ODict [("id", VInt 9); ("name", VStr "Nobody"); ("email", VStr "nobody")];
           OList [VRef 0];
           ODict [("users", VRef 1)]]
          [] sample_clock 0.

(** ** Records with absent fields

    [get] answers [None] for a key that is absent, so Validate also takes
    dictionaries that lack some of the three fields it tests.  A field
    that is present has the type of the data model. *)

Module Partial.

Record user : Type := mk_user {
  user_id : option Z;
  full_name : option string;
  email_domain : option string
}.

End Partial.

Definition field_opt_int (d : list (string * value)) (k : string) : option (option Z) :=
  match dict_lookup d k with
  | None => Some None
  | Some (VInt n) => Some (Some n)
  | Some _ => None
  end.

Definition field_opt_str (d : list (string * value)) (k : string)
  : option (option string) :=
  match dict_lookup d k with
  | None => Some None
  | Some (VStr s) => Some (Some s)
  | Some _ => None
  end.

Definition read_partial_user (h : list obj) (v : value) : option Partial.user :=
  d ← read_dict h v;
  i ← field_opt_int d "user_id";
  n ← field_opt_str d "full_name";
  e ← field_opt_str d "email_domain";
  Some (Partial.mk_user i n e).

Definition read_partial_data (h : list obj) (v : value) : option (list Partial.user) :=
  read_collection h v "transformed_users" ≫= mapM (read_partial_user h).

(** The truth value [not] sees in a field that may be absent. *)
Definition int_true (o : option Z) : bool :=
  match o with Some n => negb (Z.eqb n 0) | None => false end.

Definition str_true (o : option string) : bool :=
  match o with Some s => negb (String.eqb s "") | None => false end.

Definition partial_valid (p : Partial.user) : bool :=
  int_true (Partial.user_id p) && str_true (Partial.full_name p)
  && str_true (Partial.email_domain p).

(** The record makes the second message subscript a key that is absent. *)
Definition partial_raises (p : Partial.user) : bool :=
  negb (str_true (Partial.email_domain p))
  && match Partial.user_id p with None => true | Some _ => false end.

(** The messages Validate appends for the record; [shown] is the text of
    the record's dictionary. *)
Definition partial_texts (shown : string) (p : Partial.user) : list string :=
  (if int_true (Partial.user_id p) && str_true (Partial.full_name p) then []
   else ["Missing required fields for user: " +:+ shown])
  ++ (if str_true (Partial.email_domain p) then []
      else ["Missing email domain for user: "
            +:+ match Partial.user_id p with Some n => Str.of_Z n | None => "" end]).

(** A raw record whose transformed record passes the tests of Validate. *)
Definition raw_valid (u : Data.raw_user) : bool :=
  negb (Z.eqb (Data.id u) 0) && negb (String.eqb (Data.name u) "")
  && negb (String.eqb (second_segment (Data.email u)) "").


(** Worlds for the examples of the further properties. *)

(** Raw data: two records with an '@', one without, one more with. *)
Definition third_bad_world : world :=
  mkWorld [ODict [("id", VInt 1); ("name", VStr "Ann"); ("email", VStr "ann@example.com")];
           ODict [("id", VInt 0); ("name", VStr ""); ("email", VStr "bo@")];
           ODict [("id", VInt 3); ("name", VStr "Cy"); ("email", VStr "cy.example.com")];
           ODict [("id", VInt 4); ("name", VStr "Di"); ("email", VStr "di@example.com")];
           OList [VRef 0; VRef 1; VRef 2; VRef 3];
           ODict [("users", VRef 4)];
           OList [VRef 0; VRef 1];
           ODict [("users", VRef 6)]]
          [] sample_clock 0.

(** Transformed data whose records lack fields: the first has no name,
    the second no identifier, the third neither identifier nor domain;
    at 4 the collection of the first two, at 6 that of all three. *)
Definition absent_world : world :=
  mkWorld [ODict [("user_id", VInt 1); ("email_domain", VStr "example.com")];
           ODict [("full_name", VStr "BO"); ("email_domain", VStr "example.com")];
           ODict [("full_name", VStr "CY")];
           OList [VRef 0; VRef 1];
           ODict [("transformed_users", VRef 3)];
           OList [VRef 0; VRef 1; VRef 2];
           ODict [("transformed_users", VRef 5)]]
          [] sample_clock 0.

(** Validation results without the list of errors, reporting 2 invalid
    records at 1 and none at 2; transformed data at 4. *)
Definition no_errors_key_world : world :=
  mkWorld [OList [VInt 10; VInt 20];
           ODict [("invalid_records", VInt 2)];
           ODict [("invalid_records", VInt 0)];
           ODict [];
           ODict [("transformed_users", VRef 0)]]
          [] sample_clock 0.

(** ** Texts and stores of the further properties *)

(** The text has only ASCII characters: on such a text [Str.upper] is
    Python's [str.upper]. *)
Fixpoint ascii_text (s : string) : bool :=
  match s with
  | EmptyString => true
  | String c s' => (N_of_ascii c <? 128)%N && ascii_text s'
  end.

(** A store is closed when every reference held by one of its objects
    points into it, as in every store a Python program builds. *)
Definition valid_value (n : nat) (v : value) : bool :=
  match v with
  | VRef l => Nat.ltb l n
  | _ => true
  end.

Definition closed_obj (n : nat) (o : obj) : bool :=
  match o with
  | ODict d => forallb (fun kv => valid_value n (snd kv)) d
  | OList xs => forallb (valid_value n) xs
  end.

Definition closed_store (h : list obj) : bool :=
  forallb (closed_obj (length h)) h.

(** The messages of Validate for a record, with the text the store [h]
    gives to the record's dictionary [v]. *)
Definition record_messages (h : list obj) (v : value) (t : Data.transformed_user)
  : list string :=
  (if Z.eqb (Data.user_id t) 0 || String.eqb (Data.full_name t) ""
   then ["Missing required fields for user: " +:+ str_of h v] else [])
  ++ (if String.eqb (Data.email_domain t) ""
      then ["Missing email domain for user: " +:+ Str.of_Z (Data.user_id t)]
      else []).

(** Inputs outside the data model: a transformed record without
    identifier and domain (data at 2), an empty dictionary (at 3), and a
    raw record whose name is a number (data at 6). *)
Definition untyped_world : world :=
  mkWorld [ODict [("full_name", VStr "NOID")];
           OList [VRef 0];
           ODict [("transformed_users", VRef 1)];
           ODict [];
           ODict [("id", VInt 9); ("name", VInt 5); ("email", VStr "x@example.com")];
           OList [VRef 4];
           ODict [("users", VRef 5)]]
          [] sample_clock 0.

(** * Properties *)

(** ** Splitting a string *)

Section Split.
Variable sep : ascii.

Lemma split_shape (s : string) :
  Str.split sep s =
  Str.before sep s ::
    match Str.after sep s with Some r => Str.split sep r | None => [] end.
Proof.
  induction s as [|c s IH]; simpl; [reflexivity|].
  destruct (Ascii.eqb c sep); [reflexivity|].
  rewrite IH. reflexivity.
Qed.

Lemma split_second (s : string) :
  Str.split sep s !! 1%nat = Str.before sep <$> Str.after sep s.
Proof.
  rewrite split_shape. destruct (Str.after sep s) as [r|]; simpl; [|reflexivity].
  rewrite split_shape. reflexivity.
Qed.

Lemma after_contains (s : string) :
  Str.contains sep s = true <-> is_Some (Str.after sep s).
Proof.
  induction s as [|c s IH]; simpl.
  - split; [discriminate|]. intros [? ?]; discriminate.
  - destruct (Ascii.eqb c sep); simpl; [|exact IH]. split; eauto.
Qed.

Lemma before_whole (s : string) :
  Str.contains sep s = false -> Str.before sep s = s.
Proof.
  induction s as [|c s IH]; simpl; [reflexivity|].
  destruct (Ascii.eqb c sep); simpl; [discriminate|].
  intros H. rewrite IH by exact H. reflexivity.
Qed.

Lemma count_contains (s : string) :
  Str.count sep s = 0%nat -> Str.contains sep s = false.
Proof.
  induction s as [|c s IH]; simpl; [reflexivity|].
  destruct (Ascii.eqb c sep); simpl; [discriminate|exact IH].
Qed.

Lemma after_single (s : string) :
  Str.count sep s = 1%nat ->
  exists r, Str.after sep s = Some r /\ Str.contains sep r = false.
Proof.
  induction s as [|c s IH]; simpl; [discriminate|].
  destruct (Ascii.eqb c sep); simpl.
  - intros H. exists s. split; [reflexivity|]. apply count_contains. lia.
  - exact IH.
Qed.
End Split.

Lemma second_segment_split (e : string) :
  Str.contains "@" e = true ->
  Str.split "@" e !! 1%nat = Some (second_segment e).
Proof.
  intros H. apply after_contains in H as [r Hr].
  rewrite split_second. unfold second_segment. rewrite Hr. reflexivity.
Qed.

Lemma no_segment_split (e : string) :
  Str.contains "@" e = false -> Str.split "@" e !! 1%nat = None.
Proof.
  intros H. rewrite split_second.
  destruct (Str.after "@" e) as [r|] eqn:Hr; [|reflexivity].
  assert (Str.contains "@" e = true) by (apply after_contains; eauto).
  congruence.
Qed.

(** ** Running a computation step by step *)

Lemma bind_ok {A B} (m : M A) (k : A -> M B) w a w' :
  m w = (Ok a, w') -> bind m k w = k a w'.
Proof. unfold bind. intros ->. reflexivity. Qed.

Lemma bind_raise {A B} (m : M A) (k : A -> M B) w e w' :
  m w = (Raise e, w') -> bind m k w = (Raise e, w').
Proof. unfold bind. intros ->. reflexivity. Qed.

Lemma bind_assoc {A B C} (m : M A) (k : A -> M B) (k' : B -> M C) w :
  bind (bind m k) k' w = bind m (fun a => bind (k a) k') w.
Proof. unfold bind. destruct (m w) as [[a|e] w']; reflexivity. Qed.

(** Objects allocated after a store [h] sit at [length h + i]. *)
Lemma lookup_new (h ext : list obj) (i : nat) :
  (h ++ ext) !! (length h + i)%nat = ext !! i.
Proof. rewrite lookup_app_r by lia. f_equal. lia. Qed.

Section Steps.
Variables (h ext : list obj) (lg : list (level * string))
          (ck : nat -> string) (tk : nat).

Lemma alloc_new (o : obj) :
  alloc o (mkWorld (h ++ ext) lg ck tk) =
  (Ok (VRef (length h + length ext)), mkWorld (h ++ (ext ++ [o])) lg ck tk).
Proof.
  unfold alloc, set_heap. simpl. rewrite length_app, app_assoc. reflexivity.
Qed.

Lemma subscript_new i d k x :
  ext !! i = Some (ODict d) -> dict_lookup d k = Some x ->
  subscript (VRef (length h + i)) k (mkWorld (h ++ ext) lg ck tk) =
  (Ok x, mkWorld (h ++ ext) lg ck tk).
Proof.
  intros Hi Hk. unfold subscript. simpl. rewrite lookup_new, Hi, Hk. reflexivity.
Qed.

Lemma subscript_old l d k x :
  h !! l = Some (ODict d) -> dict_lookup d k = Some x ->
  subscript (VRef l) k (mkWorld (h ++ ext) lg ck tk) =
  (Ok x, mkWorld (h ++ ext) lg ck tk).
Proof.
  intros Hl Hk. unfold subscript. simpl.
  rewrite (lookup_app_l_Some _ _ _ _ Hl), Hk. reflexivity.
Qed.

Lemma get_old l d k :
  h !! l = Some (ODict d) ->
  get (VRef l) k (mkWorld (h ++ ext) lg ck tk) =
  (Ok (default VNone (dict_lookup d k)), mkWorld (h ++ ext) lg ck tk).
Proof.
  intros Hl. unfold get. simpl.
  rewrite (lookup_app_l_Some _ _ _ _ Hl). reflexivity.
Qed.

Lemma len_new i xs :
  ext !! i = Some (OList xs) ->
  len (VRef (length h + i)) (mkWorld (h ++ ext) lg ck tk) =
  (Ok (VInt (Z.of_nat (length xs))), mkWorld (h ++ ext) lg ck tk).
Proof. intros Hi. unfold len. simpl. rewrite lookup_new, Hi. reflexivity. Qed.

Lemma len_old l xs :
  h !! l = Some (OList xs) ->
  len (VRef l) (mkWorld (h ++ ext) lg ck tk) =
  (Ok (VInt (Z.of_nat (length xs))), mkWorld (h ++ ext) lg ck tk).
Proof.
  intros Hl. unfold len. simpl.
  rewrite (lookup_app_l_Some _ _ _ _ Hl). reflexivity.
Qed.

Lemma iterate_old l xs :
  h !! l = Some (OList xs) ->
  iterate (VRef l) (mkWorld (h ++ ext) lg ck tk) =
  (Ok xs, mkWorld (h ++ ext) lg ck tk).
Proof.
  intros Hl. unfold iterate. simpl.
  rewrite (lookup_app_l_Some _ _ _ _ Hl). reflexivity.
Qed.

Lemma append_new i xs x :
  ext !! i = Some (OList xs) ->
  append (VRef (length h + i)) x (mkWorld (h ++ ext) lg ck tk) =
  (Ok tt, mkWorld (h ++ <[i := OList (xs ++ [x])]> ext) lg ck tk).
Proof.
  intros Hi. unfold append, set_heap. simpl.
  rewrite lookup_new, Hi, insert_app_r. reflexivity.
Qed.

Lemma store_new i d k x :
  ext !! i = Some (ODict d) ->
  store (VRef (length h + i)) k x (mkWorld (h ++ ext) lg ck tk) =
  (Ok tt, mkWorld (h ++ <[i := ODict (dict_store d k x)]> ext) lg ck tk).
Proof.
  intros Hi. unfold store, set_heap. simpl.
  rewrite lookup_new, Hi, insert_app_r. reflexivity.
Qed.
End Steps.

Lemma logging_run h lg ck tk lv msg :
  logging lv msg (mkWorld h lg ck tk) = (Ok tt, mkWorld h (lg ++ [(lv, msg)]) ck tk).
Proof. reflexivity. Qed.

Lemma now_run h lg ck tk :
  now_isoformat (mkWorld h lg ck tk) = (Ok (VStr (ck tk)), mkWorld h lg ck (S tk)).
Proof. reflexivity. Qed.

Lemma format_run h lg ck tk v :
  format v (mkWorld h lg ck tk) = (Ok (str_of h v), mkWorld h lg ck tk).
Proof. reflexivity. Qed.

Lemma ret_run {A} (a : A) w : ret a w = (Ok a, w).
Proof. reflexivity. Qed.

(** One step of a run: the first computation of a [bind] is replaced by
    its outcome. *)
Ltac step_with lem :=
  erewrite bind_ok; [| solve [ lem ] ].

Ltac run_step :=
  first
    [ step_with ltac:(apply logging_run)
    | step_with ltac:(apply alloc_new)
    | step_with ltac:(apply now_run)
    | step_with ltac:(apply format_run)
    | step_with ltac:(apply ret_run)
    | step_with ltac:(eapply subscript_new; reflexivity)
    | step_with ltac:(eapply len_new; reflexivity)
    | step_with ltac:(eapply append_new; reflexivity)
    | step_with ltac:(eapply store_new; reflexivity) ];
  cbn [length app Nat.add].

Lemma world_nil h lg ck tk : mkWorld h lg ck tk = mkWorld (h ++ []) lg ck tk.
Proof. rewrite app_nil_r. reflexivity. Qed.

(** ** Reading the data model: inversion and stability *)

Lemma read_dict_inv h v d :
  read_dict h v = Some d -> exists l, v = VRef l /\ h !! l = Some (ODict d).
Proof.
  destruct v as [| | | |l]; simpl; try discriminate.
  destruct (h !! l) as [[d'|xs]|] eqn:E; try discriminate.
  intros [= ->]. eauto.
Qed.

Lemma read_list_inv h v xs :
  read_list h v = Some xs -> exists l, v = VRef l /\ h !! l = Some (OList xs).
Proof.
  destruct v as [| | | |l]; simpl; try discriminate.
  destruct (h !! l) as [[d'|xs']|] eqn:E; try discriminate.
  intros [= ->]. eauto.
Qed.

Lemma field_int_inv d k n : field_int d k = Some n -> dict_lookup d k = Some (VInt n).
Proof.
  unfold field_int. destruct (dict_lookup d k) as [[]|]; simpl; congruence.
Qed.

Lemma field_str_inv d k s : field_str d k = Some s -> dict_lookup d k = Some (VStr s).
Proof.
  unfold field_str. destruct (dict_lookup d k) as [[]|]; simpl; congruence.
Qed.

Lemma read_collection_inv h v k xs :
  read_collection h v k = Some xs ->
  exists l d lc, v = VRef l /\ h !! l = Some (ODict d) /\
                 dict_lookup d k = Some (VRef lc) /\ h !! lc = Some (OList xs).
Proof.
  unfold read_collection. intros H.
  destruct (read_dict h v) as [d|] eqn:Hd; simpl in H; [|discriminate].
  destruct (dict_lookup d k) as [c|] eqn:Hc; simpl in H; [|discriminate].
  apply read_dict_inv in Hd as (l & -> & Hl).
  apply read_list_inv in H as (lc & -> & Hlc). eauto 10.
Qed.

Lemma read_raw_user_inv h v u :
  read_raw_user h v = Some u ->
  exists l d, v = VRef l /\ h !! l = Some (ODict d) /\
    dict_lookup d "id" = Some (VInt (Data.id u)) /\
    dict_lookup d "name" = Some (VStr (Data.name u)) /\
    dict_lookup d "email" = Some (VStr (Data.email u)).
Proof.
  unfold read_raw_user. intros H.
  destruct (read_dict h v) as [d|] eqn:Hd; simpl in H; [|discriminate].
  destruct (field_int d "id") as [i|] eqn:Hi; simpl in H; [|discriminate].
  destruct (field_str d "name") as [n|] eqn:Hn; simpl in H; [|discriminate].
  destruct (field_str d "email") as [e|] eqn:He; simpl in H; [|discriminate].
  injection H as <-. simpl.
  apply read_dict_inv in Hd as (l & -> & Hl).
  eauto 10 using field_int_inv, field_str_inv.
Qed.

Lemma read_transformed_user_inv h v t :
  read_transformed_user h v = Some t ->
  exists l d, v = VRef l /\ h !! l = Some (ODict d) /\
    dict_lookup d "user_id" = Some (VInt (Data.user_id t)) /\
    dict_lookup d "full_name" = Some (VStr (Data.full_name t)) /\
    dict_lookup d "email_domain" = Some (VStr (Data.email_domain t)).
Proof.
  unfold read_transformed_user. intros H.
  destruct (read_dict h v) as [d|] eqn:Hd; simpl in H; [|discriminate].
  destruct (field_int d "user_id") as [i|] eqn:Hi; simpl in H; [|discriminate].
  destruct (field_str d "full_name") as [n|] eqn:Hn; simpl in H; [|discriminate].
  destruct (field_str d "email_domain") as [e|] eqn:He; simpl in H; [|discriminate].
  destruct (field_str d "processed_at") as [p|] eqn:Hp; simpl in H; [|discriminate].
  injection H as <-. simpl.
  apply read_dict_inv in Hd as (l & -> & Hl).
  eauto 10 using field_int_inv, field_str_inv.
Qed.

(** What was read from a store is read from every extension of it. *)
Section Stable.
Variables h h' : list obj.
Hypothesis Hext : h `prefix_of` h'.

Lemma read_dict_stable v d : read_dict h v = Some d -> read_dict h' v = Some d.
Proof.
  intros H. apply read_dict_inv in H as (l & -> & Hl). unfold read_dict.
  rewrite (prefix_lookup_Some _ _ _ _ Hl Hext). reflexivity.
Qed.

Lemma read_list_stable v xs : read_list h v = Some xs -> read_list h' v = Some xs.
Proof.
  intros H. apply read_list_inv in H as (l & -> & Hl). unfold read_list.
  rewrite (prefix_lookup_Some _ _ _ _ Hl Hext). reflexivity.
Qed.

Lemma read_collection_stable v k xs :
  read_collection h v k = Some xs -> read_collection h' v k = Some xs.
Proof.
  unfold read_collection. intros H.
  destruct (read_dict h v) as [d|] eqn:Hd; simpl in H; [|discriminate].
  rewrite (read_dict_stable _ _ Hd). simpl.
  destruct (dict_lookup d k) as [c|]; simpl in *; [|discriminate].
  eauto using read_list_stable.
Qed.

Lemma read_raw_user_stable v u :
  read_raw_user h v = Some u -> read_raw_user h' v = Some u.
Proof.
  unfold read_raw_user. intros H.
  destruct (read_dict h v) as [d|] eqn:Hd; simpl in H; [|discriminate].
  rewrite (read_dict_stable _ _ Hd). exact H.
Qed.

Lemma read_transformed_user_stable v t :
  read_transformed_user h v = Some t -> read_transformed_user h' v = Some t.
Proof.
  unfold read_transformed_user. intros H.
  destruct (read_dict h v) as [d|] eqn:Hd; simpl in H; [|discriminate].
  rewrite (read_dict_stable _ _ Hd). exact H.
Qed.

Lemma mapM_stable {A} (f g : value -> option A) vs xs :
  (forall v x, f v = Some x -> g v = Some x) ->
  mapM f vs = Some xs -> mapM g vs = Some xs.
Proof.
  intros Hfg H. apply mapM_Some in H. apply mapM_Some.
  induction H; constructor; eauto.
Qed.

Lemma read_raw_data_stable v us :
  read_raw_data h v = Some us -> read_raw_data h' v = Some us.
Proof.
  unfold read_raw_data. intros H.
  destruct (read_collection h v "users") as [vs|] eqn:Hc; simpl in H; [|discriminate].
  rewrite (read_collection_stable _ _ _ Hc). simpl.
  eapply mapM_stable; [|exact H]. apply read_raw_user_stable.
Qed.

Lemma read_transformed_data_stable v ts :
  read_transformed_data h v = Some ts -> read_transformed_data h' v = Some ts.
Proof.
  unfold read_transformed_data. intros H.
  destruct (read_collection h v "transformed_users") as [vs|] eqn:Hc;
    simpl in H; [|discriminate].
  rewrite (read_collection_stable _ _ _ Hc). simpl.
  eapply mapM_stable; [|exact H]. apply read_transformed_user_stable.
Qed.

Lemma read_validation_results_stable v r :
  read_validation_results h v = Some r -> read_validation_results h' v = Some r.
Proof.
  unfold read_validation_results. intros H.
  destruct (read_dict h v) as [d|] eqn:Hd; simpl in H; [|discriminate].
  rewrite (read_dict_stable _ _ Hd). simpl.
  destruct (field_int d "total_records"); simpl in *; [|discriminate].
  destruct (field_int d "valid_records"); simpl in *; [|discriminate].
  destruct (field_int d "invalid_records"); simpl in *; [|discriminate].
  destruct (read_collection h v "validation_errors") as [vs|] eqn:Hc;
    simpl in H; [|discriminate].
  rewrite (read_collection_stable _ _ _ Hc). exact H.
Qed.
End Stable.

(** ** Extract *)

Lemma extract_data_run h lg ck tk :
  extract_data [] (mkWorld h lg ck tk) =
  (Ok (VRef (length h + 4)),
   mkWorld (h ++ sample_objects (length h))
           (lg ++ [(INFO, "Starting data extraction...");
                   (INFO, "Extracted 3 user records")]) ck tk).
Proof.
  rewrite (world_nil h lg). unfold extract_data.
  repeat run_step. rewrite <- app_assoc. reflexivity.
Qed.

Lemma read_sample h :
  read_raw_data (h ++ sample_objects (length h)) (VRef (length h + 4))
  = Some sample_users.
Proof.
  unfold read_raw_data, read_collection, read_raw_user, read_dict, read_list.
  repeat (progress (rewrite ?lookup_new; simpl)). reflexivity.
Qed.

(** ** Transform *)

Section TransformUser.
Variables (h ext : list obj) (lg : list (level * string))
          (ck : nat -> string) (tk : nat).
Variables (v : value) (u : Data.raw_user).
Hypothesis Hread : read_raw_user h v = Some u.

Lemma transform_user_ok :
  has_at u = true ->
  transform_user v (mkWorld (h ++ ext) lg ck tk) =
  (Ok (VRef (length h + length ext)),
   mkWorld (h ++ (ext ++ [transformed_obj (transformed_of u (ck tk))])) lg ck (S tk)).
Proof.
  intros Hat. apply read_raw_user_inv in Hread as (l & d & -> & Hl & Hi & Hn & He).
  unfold transform_user.
  step_with ltac:(eapply subscript_old; eassumption).
  step_with ltac:(eapply subscript_old; eassumption).
  step_with ltac:(reflexivity).
  step_with ltac:(eapply subscript_old; eassumption).
  unfold str_split_second. rewrite (second_segment_split _ Hat).
  repeat run_step. apply alloc_new.
Qed.

Lemma transform_user_fail :
  has_at u = false ->
  transform_user v (mkWorld (h ++ ext) lg ck tk) =
  (Raise IndexError, mkWorld (h ++ ext) lg ck tk).
Proof.
  intros Hat. apply read_raw_user_inv in Hread as (l & d & -> & Hl & Hi & Hn & He).
  unfold transform_user.
  step_with ltac:(eapply subscript_old; eassumption).
  step_with ltac:(eapply subscript_old; eassumption).
  step_with ltac:(reflexivity).
  step_with ltac:(eapply subscript_old; eassumption).
  unfold str_split_second. rewrite (no_segment_split _ Hat). reflexivity.
Qed.
End TransformUser.

Lemma refs_succ base n : refs base (S n) = VRef base :: refs (S base) n.
Proof. reflexivity. Qed.

Lemma length_refs base n : length (refs base n) = n.
Proof. unfold refs. rewrite length_map, length_seq. reflexivity. Qed.

Section TransformLoop.
Variable h : list obj.

Lemma transform_loop_ok vs us :
  Forall2 (fun v u => read_raw_user h v = Some u) vs us ->
  Forall (fun u => has_at u = true) us ->
  forall acc objs lg ck tk,
    for_each vs (transform_step (VRef (length h + 0))) (mkWorld (h ++ OList acc :: objs) lg ck tk) =
    (Ok tt,
     mkWorld (h ++ OList (acc ++ refs (length h + S (length objs)) (length us))
                :: objs ++ map transformed_obj (transformed_from ck tk us))
             lg ck (tk + length us)).
Proof.
  induction 1 as [|v u vs us Hv _ IH]; intros Hat acc objs lg ck tk.
  - simpl. rewrite !app_nil_r, Nat.add_0_r. reflexivity.
  - inversion Hat as [|? ? Hu Hus]; subst. simpl for_each. unfold transform_step at 1.
    erewrite bind_ok; cycle 1.
    { erewrite bind_ok by (eapply transform_user_ok; eassumption).
      eapply append_new. reflexivity. }
    simpl. rewrite IH by assumption.
    rewrite length_app. simpl length.
    rewrite refs_succ, <- !app_assoc. simpl.
    repeat f_equal; lia.
Qed.

Lemma transform_loop_fail vs us :
  Forall2 (fun v u => read_raw_user h v = Some u) vs us ->
  Exists (fun u => has_at u = false) us ->
  forall acc objs lg ck tk,
    exists w',
      for_each vs (transform_step (VRef (length h + 0))) (mkWorld (h ++ OList acc :: objs) lg ck tk) =
      (Raise IndexError, w').
Proof.
  induction 1 as [|v u vs us Hv _ IH]; intros Hex acc objs lg ck tk.
  - inversion Hex.
  - simpl for_each. unfold transform_step at 1.
    destruct (has_at u) eqn:Hu.
    + assert (Hex' : Exists (fun u => has_at u = false) us).
      { inversion Hex; subst; [congruence|assumption]. }
      erewrite bind_ok; cycle 1.
      { erewrite bind_ok by (eapply transform_user_ok; eassumption).
        eapply append_new. reflexivity. }
      simpl. apply IH. exact Hex'.
    + eexists. erewrite bind_raise; [reflexivity|].
      erewrite bind_raise; [reflexivity|].
      eapply transform_user_fail; eassumption.
Qed.
End TransformLoop.

Lemma length_transformed_from ck tk us :
  length (transformed_from ck tk us) = length us.
Proof. revert tk. induction us; intros; simpl; auto. Qed.

Lemma read_raw_data_inv h raw us :
  read_raw_data h raw = Some us ->
  exists l d lc vs, raw = VRef l /\ h !! l = Some (ODict d) /\
    dict_lookup d "users" = Some (VRef lc) /\ h !! lc = Some (OList vs) /\
    Forall2 (fun v u => read_raw_user h v = Some u) vs us.
Proof.
  unfold read_raw_data. intros H.
  destruct (read_collection h raw "users") as [vs|] eqn:Hc; simpl in H; [|discriminate].
  apply read_collection_inv in Hc as (l & d & lc & -> & Hl & Hd & Hlc).
  apply mapM_Some in H. eauto 10.
Qed.

Lemma transform_data_ok h lg ck tk raw us :
  read_raw_data h raw = Some us ->
  Forall (fun u => has_at u = true) us ->
  transform_data [raw] (mkWorld h lg ck tk) =
  (Ok (VRef (length h + S (length us))),
   mkWorld (h ++ transform_objects (length h) (transformed_from ck tk us))
           (lg ++ [(INFO, "Starting data transformation...");
                   (INFO, "Transformed " +:+ Str.of_Z (Z.of_nat (length us))
                          +:+ " user records")])
           ck (tk + length us)).
Proof.
  intros Hraw Hat.
  apply read_raw_data_inv in Hraw as (l & d & lc & vs & -> & Hl & Hd & Hlc & Hvs).
  rewrite (world_nil h lg). unfold transform_data.
  run_step. run_step.
  step_with ltac:(eapply subscript_old; eassumption).
  step_with ltac:(eapply iterate_old; eassumption).
  step_with ltac:(eapply transform_loop_ok; eassumption).
  cbn [length app].
  step_with ltac:(apply (alloc_new h (OList _ :: _))).
  step_with ltac:(eapply (len_new _ _ _ _ _ 0); reflexivity).
  run_step. run_step. rewrite ret_run.
  unfold transform_objects.
  rewrite length_refs, length_transformed_from, length_map, length_transformed_from.
  rewrite <- app_assoc. simpl.
  repeat f_equal; lia.
Qed.

Lemma transform_data_fail h lg ck tk raw us :
  read_raw_data h raw = Some us ->
  Exists (fun u => has_at u = false) us ->
  exists w', transform_data [raw] (mkWorld h lg ck tk) = (Raise IndexError, w').
Proof.
  intros Hraw Hat.
  apply read_raw_data_inv in Hraw as (l & d & lc & vs & -> & Hl & Hd & Hlc & Hvs).
  rewrite (world_nil h lg). unfold transform_data.
  run_step. run_step.
  step_with ltac:(eapply subscript_old; eassumption).
  step_with ltac:(eapply iterate_old; eassumption).
  destruct (transform_loop_fail h vs us Hvs Hat [] []
              (lg ++ [(INFO, "Starting data transformation...")]) ck tk)
    as [w' Hw'].
  eexists. erewrite bind_raise; [reflexivity|]. exact Hw'.
Qed.

Lemma transformed_obj_read h l t :
  h !! l = Some (transformed_obj t) -> read_transformed_user h (VRef l) = Some t.
Proof.
  intros Hl. unfold read_transformed_user, read_dict. rewrite Hl.
  destruct t. reflexivity.
Qed.

Lemma read_refs h pre post ts :
  Forall2 (fun v t => read_transformed_user
                        (h ++ pre ++ map transformed_obj ts ++ post) v = Some t)
          (refs (length h + length pre) (length ts)) ts.
Proof.
  revert pre. induction ts as [|t ts IH]; intros pre; simpl; [constructor|].
  rewrite refs_succ. constructor.
  - apply transformed_obj_read. rewrite lookup_new.
    apply list_lookup_middle. reflexivity.
  - specialize (IH (pre ++ [transformed_obj t])).
    rewrite length_app, <- app_assoc in IH. simpl in IH.
    replace (S (length h + length pre)) with (length h + (length pre + 1)) by lia.
    exact IH.
Qed.

Lemma read_transform_objects h ts :
  read_transformed_data (h ++ transform_objects (length h) ts)
                        (VRef (length h + S (length ts))) = Some ts.
Proof.
  unfold read_transformed_data, read_collection, read_dict, read_list,
    transform_objects.
  rewrite lookup_new. simpl.
  rewrite lookup_app_r by (rewrite length_map; lia).
  rewrite length_map, Nat.sub_diag. simpl.
  rewrite lookup_new. simpl.
  apply mapM_Some.
  exact (read_refs h [OList (refs (length h + 1) (length ts))]
                   [ODict [("transformed_users", VRef (length h + 0))]] ts).
Qed.

(** ** Validate *)

Lemma get_field h ext lg ck tk l d k x :
  h !! l = Some (ODict d) -> dict_lookup d k = Some x ->
  get (VRef l) k (mkWorld (h ++ ext) lg ck tk) = (Ok x, mkWorld (h ++ ext) lg ck tk).
Proof. intros Hl Hk. erewrite get_old by eassumption. rewrite Hk. reflexivity. Qed.

Section ValidateUser.
Variables (h : list obj) (lg : list (level * string))
          (ck : nat -> string) (tk : nat).
Variables (v : value) (t : Data.transformed_user).
Hypothesis Hread : read_transformed_user h v = Some t.

Lemma missing_required_run ext :
  missing_required v (mkWorld (h ++ ext) lg ck tk) =
  (Ok (lacks_required t), mkWorld (h ++ ext) lg ck tk).
Proof.
  apply read_transformed_user_inv in Hread as (l & d & -> & Hl & Hi & Hn & He).
  unfold missing_required, lacks_required.
  step_with ltac:(eapply get_field; eassumption).
  step_with ltac:(reflexivity).
  destruct (Z.eqb (Data.user_id t) 0); simpl; [reflexivity|].
  step_with ltac:(eapply get_field; eassumption).
  step_with ltac:(reflexivity).
  rewrite negb_involutive. reflexivity.
Qed.

Lemma validate_user_run errs total a b :
  validate_user (VRef (length h + 1)) v
    (mkWorld (h ++ validation_store (length h + 0) errs total a b) lg ck tk) =
  (Ok tt,
   mkWorld (h ++ validation_store (length h + 0)
              (errs ++ map VStr
                 (messages
                    (str_of (h ++ validation_store (length h + 0) errs total a b) v)
                    t))
              total
              (a + bool_Z (is_valid t)) (b + bool_Z (negb (is_valid t))))
           lg ck tk).
Proof.
  unfold validate_user. rewrite (bind_ok _ _ _ _ _ (missing_required_run _)).
  apply read_transformed_user_inv in Hread as (l & d & -> & Hl & Hi & Hn & He).
  unfold messages, is_valid, lacks_domain, validation_store, validation_obj.
  destruct (lacks_required t); destruct (String.eqb (Data.email_domain t) "") eqn:Hd;
    repeat first
      [ rewrite bind_assoc
      | run_step
      | step_with ltac:(eapply get_field; eassumption)
      | step_with ltac:(eapply subscript_old; eassumption)
      | step_with ltac:(reflexivity)
      | progress (cbn [negb]; rewrite ?Hd; unfold increment) ].
  all: erewrite store_new by reflexivity.
  all: try match goal with
           | |- context [str_of ?hp (VRef ?r)] =>
               generalize (str_of hp (VRef r)); intros shown
           end.
  all: simpl; rewrite ?Z.add_0_r, ?app_nil_r, <- ?app_assoc; reflexivity.
Qed.
End ValidateUser.

Lemma count_valid_cons t ts :
  count_valid (t :: ts) = (bool_Z (is_valid t) + count_valid ts)%Z.
Proof.
  unfold count_valid. cbn [List.filter].
  destruct (is_valid t); cbn [length bool_Z]; lia.
Qed.

Lemma count_invalid_cons t ts :
  count_invalid (t :: ts) = (bool_Z (negb (is_valid t)) + count_invalid ts)%Z.
Proof.
  unfold count_invalid. cbn [List.filter].
  destruct (is_valid t); cbn [length bool_Z negb]; lia.
Qed.

Lemma count_total ts :
  (count_valid ts + count_invalid ts)%Z = Z.of_nat (length ts).
Proof.
  induction ts as [|t ts IH]; [reflexivity|].
  rewrite count_valid_cons, count_invalid_cons. cbn [length].
  destruct (is_valid t); cbn [bool_Z negb]; lia.
Qed.

Lemma validate_loop h vs ts :
  Forall2 (fun v t => read_transformed_user h v = Some t) vs ts ->
  forall errs total a b lg ck tk,
  exists msgs,
    Forall2 (fun t m => exists shown, m = messages shown t) ts msgs /\
    for_each vs (validate_user (VRef (length h + 1)))
      (mkWorld (h ++ validation_store (length h + 0) errs total a b) lg ck tk) =
    (Ok tt,
     mkWorld (h ++ validation_store (length h + 0) (errs ++ map VStr (concat msgs))
                     total (a + count_valid ts) (b + count_invalid ts))
             lg ck tk).
Proof.
  induction 1 as [|v t vs ts Hv _ IH]; intros errs total a b lg ck tk.
  - exists []. split; [constructor|]. simpl.
    unfold count_valid, count_invalid. simpl. rewrite app_nil_r, !Z.add_0_r. reflexivity.
  - simpl for_each.
    rewrite (bind_ok _ _ _ _ _ (validate_user_run h lg ck tk v t Hv errs total a b)).
    edestruct IH as (msgs & Hmsgs & ->).
    eexists (_ :: msgs). split; [constructor; eauto|].
    rewrite count_valid_cons, count_invalid_cons. simpl concat.
    rewrite map_app, <- app_assoc, !Z.add_assoc. reflexivity.
Qed.

Lemma read_transformed_data_inv h tdata ts :
  read_transformed_data h tdata = Some ts ->
  exists l d lc vs, tdata = VRef l /\ h !! l = Some (ODict d) /\
    dict_lookup d "transformed_users" = Some (VRef lc) /\
    h !! lc = Some (OList vs) /\
    Forall2 (fun v t => read_transformed_user h v = Some t) vs ts.
Proof.
  unfold read_transformed_data. intros H.
  destruct (read_collection h tdata "transformed_users") as [vs|] eqn:Hc;
    simpl in H; [|discriminate].
  apply read_collection_inv in Hc as (l & d & lc & -> & Hl & Hd & Hlc).
  apply mapM_Some in H. eauto 10.
Qed.

Lemma validate_data_ok h lg ck tk tdata ts :
  read_transformed_data h tdata = Some ts ->
  exists msgs,
    Forall2 (fun t m => exists shown, m = messages shown t) ts msgs /\
    validate_data [tdata] (mkWorld h lg ck tk) =
    (Ok (VRef (length h + 1)),
     mkWorld (h ++ validation_store (length h + 0) (map VStr (concat msgs))
                     (VInt (Z.of_nat (length ts))) (count_valid ts) (count_invalid ts))
             (lg ++ [(INFO, "Starting data validation...");
                     (INFO, "Validation complete: " +:+ Str.of_Z (count_valid ts)
                            +:+ " valid, " +:+ Str.of_Z (count_invalid ts)
                            +:+ " invalid records")])
             ck tk).
Proof.
  intros Hread.
  apply read_transformed_data_inv in Hread as (l & d & lc & vs & -> & Hl & Hd & Hlc & Hvs).
  destruct (validate_loop h vs ts Hvs [] (VInt (Z.of_nat (length vs))) 0%Z 0%Z
              (lg ++ [(INFO, "Starting data validation...")]) ck tk)
    as (msgs & Hmsgs & Hloop).
  exists msgs. split; [exact Hmsgs|].
  rewrite (world_nil h lg). unfold validate_data.
  run_step.
  step_with ltac:(eapply subscript_old; eassumption).
  step_with ltac:(eapply len_old; eassumption).
  run_step. run_step.
  step_with ltac:(eapply iterate_old; eassumption).
  step_with ltac:(exact Hloop).
  unfold validation_store, validation_obj.
  repeat run_step. rewrite ret_run.
  rewrite (Forall2_length _ _ _ Hvs), <- app_assoc. reflexivity.
Qed.

Lemma mapM_read_str es : mapM read_str (map VStr es) = Some es.
Proof. apply mapM_Some. induction es; constructor; auto. Qed.

Lemma read_validation_store h es t a b :
  read_validation_results (h ++ validation_store (length h + 0) (map VStr es) (VInt t) a b)
                          (VRef (length h + 1))
  = Some (Data.mk_validation_results t a b es).
Proof.
  unfold read_validation_results, read_collection, read_dict, read_list.
  repeat (progress (rewrite ?lookup_new; simpl)).
  rewrite mapM_read_str. reflexivity.
Qed.

(** ** Load *)

Lemma read_validation_results_inv h v r :
  read_validation_results h v = Some r ->
  exists l d lc vs, v = VRef l /\ h !! l = Some (ODict d) /\
    dict_lookup d "total_records" = Some (VInt (Data.total_records r)) /\
    dict_lookup d "valid_records" = Some (VInt (Data.valid_records r)) /\
    dict_lookup d "invalid_records" = Some (VInt (Data.invalid_records r)) /\
    dict_lookup d "validation_errors" = Some (VRef lc) /\
    h !! lc = Some (OList vs) /\
    Forall2 (fun v e => read_str v = Some e) vs (Data.validation_errors r).
Proof.
  unfold read_validation_results. intros H.
  destruct (read_dict h v) as [d|] eqn:Hd; simpl in H; [|discriminate].
  destruct (field_int d "total_records") as [t|] eqn:Ht; simpl in H; [|discriminate].
  destruct (field_int d "valid_records") as [a|] eqn:Ha; simpl in H; [|discriminate].
  destruct (field_int d "invalid_records") as [b|] eqn:Hb; simpl in H; [|discriminate].
  destruct (read_collection h v "validation_errors") as [vs|] eqn:Hc;
    simpl in H; [|discriminate].
  destruct (mapM read_str vs) as [es|] eqn:Hes; simpl in H; [|discriminate].
  injection H as <-. simpl.
  apply read_collection_inv in Hc as (l & d' & lc & -> & Hl & Hd' & Hlc).
  unfold read_dict in Hd. rewrite Hl in Hd. injection Hd as ->.
  apply mapM_Some in Hes.
  exists l, d, lc, vs. repeat split; auto using field_int_inv.
Qed.

Lemma read_loading_summary_inv h v s :
  read_loading_summary h v = Some s ->
  exists l d, v = VRef l /\ h !! l = Some (ODict d) /\
    dict_lookup d "records_processed" = Some (VInt (Data.records_processed s)) /\
    dict_lookup d "load_timestamp" = Some (VStr (Data.load_timestamp s)) /\
    dict_lookup d "status" = Some (VStr (Data.status s)).
Proof.
  unfold read_loading_summary. intros H.
  destruct (read_dict h v) as [d|] eqn:Hd; simpl in H; [|discriminate].
  destruct (field_int d "records_processed") as [n|] eqn:Hn; simpl in H; [|discriminate].
  destruct (field_str d "load_timestamp") as [t|] eqn:Ht; simpl in H; [|discriminate].
  destruct (field_str d "status") as [st|] eqn:Hs; simpl in H; [|discriminate].
  injection H as <-. simpl.
  apply read_dict_inv in Hd as (l & -> & Hl).
  eauto 10 using field_int_inv, field_str_inv.
Qed.

Lemma warn_loop vs es :
  Forall2 (fun v e => read_str v = Some e) vs es ->
  forall h lg ck tk,
    for_each vs (fun error =>
        let! se := format error in
        logging WARNING ("Validation error: " +:+ se))
      (mkWorld h lg ck tk) =
    (Ok tt, mkWorld h (lg ++ map (fun e => (WARNING, "Validation error: " +:+ e)) es)
                    ck tk).
Proof.
  induction 1 as [|v e vs es Hv _ IH]; intros h lg ck tk; simpl.
  - rewrite app_nil_r. reflexivity.
  - destruct v; try discriminate. injection Hv as ->.
    erewrite bind_ok by reflexivity. simpl. rewrite IH, <- app_assoc. reflexivity.
Qed.

Lemma load_data_ok h lg ck tk tdata vres vs r :
  read_collection h tdata "transformed_users" = Some vs ->
  read_validation_results h vres = Some r ->
  load_data [tdata; vres] (mkWorld h lg ck tk) =
  (Ok (VRef (length h + 0)),
   mkWorld (h ++ [summary_obj (Z.of_nat (length vs)) (ck tk)])
           (lg ++ load_log r (length vs)) ck (S tk)).
Proof.
  intros Ht Hr.
  apply read_collection_inv in Ht as (l & d & lc & -> & Hl & Hd & Hlc).
  apply read_validation_results_inv in Hr
    as (l' & d' & lc' & es & -> & Hl' & _ & _ & Hb & He & Hlc' & Hes).
  rewrite (world_nil h lg). unfold load_data, load_log, load_warnings.
  run_step.
  step_with ltac:(eapply subscript_old; eassumption).
  step_with ltac:(reflexivity).
  destruct (Z.ltb 0 (Data.invalid_records r)).
  - rewrite bind_assoc.
    step_with ltac:(eapply subscript_old; eassumption).
    rewrite bind_assoc. run_step. rewrite bind_assoc. run_step. rewrite bind_assoc.
    step_with ltac:(eapply subscript_old; eassumption).
    rewrite bind_assoc.
    step_with ltac:(eapply iterate_old; eassumption).
    step_with ltac:(eapply warn_loop; eassumption).
    step_with ltac:(eapply subscript_old; eassumption).
    step_with ltac:(eapply len_old; eassumption).
    run_step. run_step.
    step_with ltac:(eapply (len_old h [_]); eassumption).
    run_step. run_step. rewrite ret_run.
    rewrite <- !app_assoc. reflexivity.
  - run_step.
    step_with ltac:(eapply subscript_old; eassumption).
    step_with ltac:(eapply len_old; eassumption).
    run_step. run_step.
    step_with ltac:(eapply (len_old h [_]); eassumption).
    run_step. run_step. rewrite ret_run.
    rewrite <- !app_assoc. reflexivity.
Qed.

Lemma read_summary_obj h n now :
  read_loading_summary (h ++ [summary_obj n now]) (VRef (length h + 0))
  = Some (Data.mk_loading_summary n now "completed").
Proof.
  unfold read_loading_summary, read_dict. rewrite lookup_new. reflexivity.
Qed.

(** ** Notify *)

Lemma send_notification_ok h lg ck tk summ vres s r :
  read_loading_summary h summ = Some s ->
  read_validation_results h vres = Some r ->
  send_notification [summ; vres] (mkWorld h lg ck tk) =
  (Ok (VStr "Notification sent successfully"),
   mkWorld h (lg ++ notify_log s r) ck tk).
Proof.
  intros Hs Hr.
  apply read_loading_summary_inv in Hs as (l & d & -> & Hl & Hn & Ht & Hst).
  apply read_validation_results_inv in Hr
    as (l' & d' & lc' & es & -> & Hl' & _ & Ha & Hb & _).
  rewrite (world_nil h lg). unfold send_notification, notify_log.
  repeat first
    [ run_step | step_with ltac:(eapply subscript_old; eassumption) ].
  rewrite ret_run, <- app_assoc, app_nil_r. reflexivity.
Qed.

(** ** Writes to the store *)

Create HintDb store.

Lemma keeps_extends {A} (m : M A) : keeps_store m -> extends_store m.
Proof. intros H w. rewrite H. reflexivity. Qed.

Lemma keeps_ret {A} (a : A) : keeps_store (ret a).
Proof. intros w. reflexivity. Qed.

Lemma keeps_raise {A} (e : exn) : keeps_store (@raise A e).
Proof. intros w. reflexivity. Qed.

Lemma keeps_bind {A B} (m : M A) (k : A -> M B) :
  keeps_store m -> (forall a, keeps_store (k a)) -> keeps_store (bind m k).
Proof.
  intros Hm Hk w. unfold bind. specialize (Hm w).
  destruct (m w) as [[a|e] w']; simpl in *; [|exact Hm].
  rewrite Hk. exact Hm.
Qed.

Lemma extends_bind {A B} (m : M A) (k : A -> M B) :
  extends_store m -> (forall a, extends_store (k a)) -> extends_store (bind m k).
Proof.
  intros Hm Hk w. unfold bind. specialize (Hm w).
  destruct (m w) as [[a|e] w']; simpl in *; [|exact Hm].
  etransitivity; [exact Hm|apply Hk].
Qed.

Lemma keeps_if {A} (b : bool) (m1 m2 : M A) :
  keeps_store m1 -> keeps_store m2 -> keeps_store (if b then m1 else m2).
Proof. destruct b; auto. Qed.

Lemma keeps_logging lv msg : keeps_store (logging lv msg).
Proof. intros w. reflexivity. Qed.

Lemma keeps_now : keeps_store now_isoformat.
Proof. intros w. reflexivity. Qed.

Lemma keeps_format v : keeps_store (format v).
Proof. intros w. reflexivity. Qed.

Lemma keeps_subscript v k : keeps_store (subscript v k).
Proof.
  intros w. unfold subscript. destruct v; try reflexivity.
  destruct (heap w !! l) as [[d|xs]|]; try reflexivity.
  destruct (dict_lookup d k); reflexivity.
Qed.

Lemma keeps_get v k : keeps_store (get v k).
Proof.
  intros w. unfold get. destruct v; try reflexivity.
  destruct (heap w !! l) as [[d|xs]|]; reflexivity.
Qed.

Lemma keeps_len v : keeps_store (len v).
Proof.
  intros w. unfold len. destruct v; try reflexivity.
  destruct (heap w !! l) as [[d|xs]|]; reflexivity.
Qed.

Lemma keeps_iterate v : keeps_store (iterate v).
Proof.
  intros w. unfold iterate. destruct v; try reflexivity.
  destruct (heap w !! l) as [[d|xs]|]; reflexivity.
Qed.

Lemma keeps_truthy v : keeps_store (truthy v).
Proof.
  intros w. unfold truthy. destruct v; try reflexivity.
  destruct (heap w !! l) as [[d|xs]|]; reflexivity.
Qed.

Lemma keeps_greater v n : keeps_store (greater v n).
Proof. intros w. unfold greater. destruct (as_int v); reflexivity. Qed.

Lemma keeps_for_each xs body :
  (forall x, keeps_store (body x)) -> keeps_store (for_each xs body).
Proof.
  intros Hb. induction xs as [|x xs IH]; simpl.
  - apply keeps_ret.
  - apply keeps_bind; auto.
Qed.

Lemma extends_alloc o : extends_store (alloc o).
Proof. intros w. simpl. apply prefix_app_r. reflexivity. Qed.

#[local] Hint Resolve keeps_ret keeps_raise keeps_logging keeps_now keeps_format
  keeps_subscript keeps_get keeps_len keeps_iterate keeps_truthy keeps_greater
  keeps_if keeps_bind keeps_for_each : store.

Lemma send_notification_keeps args : keeps_store (send_notification args).
Proof.
  unfold send_notification.
  destruct args as [|s [|v [|? ?]]]; auto 20 with store.
Qed.

Lemma load_data_extends args : extends_store (load_data args).
Proof.
  unfold load_data.
  destruct args as [|t [|v [|? ?]]];
    try solve [apply keeps_extends; auto with store].
  apply extends_bind; [apply keeps_extends; auto with store|intros _].
  apply extends_bind; [apply keeps_extends; auto with store|intros invalid].
  apply extends_bind; [apply keeps_extends; auto with store|intros some_invalid].
  apply extends_bind; [apply keeps_extends; auto 20 with store|intros _].
  apply extends_bind; [apply keeps_extends; auto with store|intros users].
  apply extends_bind; [apply keeps_extends; auto with store|intros n].
  apply extends_bind; [apply keeps_extends; auto with store|intros now].
  apply extends_bind; [apply extends_alloc|intros summary].
  apply keeps_extends; auto 20 with store.
Qed.

Lemma reads_ret {A} (a : A) : reads (ret a).
Proof. intros w. reflexivity. Qed.

Lemma reads_bind {A B} (m : M A) (k : A -> M B) :
  reads m -> (forall a, reads (k a)) -> reads (bind m k).
Proof.
  intros Hm Hk w. unfold bind. specialize (Hm w).
  destruct (m w) as [[a|e] w']; simpl in *; subst; [apply Hk|reflexivity].
Qed.

Lemma reads_subscript v k : reads (subscript v k).
Proof.
  intros w. unfold subscript. destruct v; try reflexivity.
  destruct (heap w !! l) as [[d|xs]|]; try reflexivity.
  destruct (dict_lookup d k); reflexivity.
Qed.

Lemma reads_get v k : reads (get v k).
Proof.
  intros w. unfold get. destruct v; try reflexivity.
  destruct (heap w !! l) as [[d|xs]|]; reflexivity.
Qed.

Lemma reads_len v : reads (len v).
Proof.
  intros w. unfold len. destruct v; try reflexivity.
  destruct (heap w !! l) as [[d|xs]|]; reflexivity.
Qed.

Lemma reads_iterate v : reads (iterate v).
Proof.
  intros w. unfold iterate. destruct v; try reflexivity.
  destruct (heap w !! l) as [[d|xs]|]; reflexivity.
Qed.

Lemma reads_truthy v : reads (truthy v).
Proof.
  intros w. unfold truthy. destruct v; try reflexivity.
  destruct (heap w !! l) as [[d|xs]|]; reflexivity.
Qed.

Lemma reads_missing_required v : reads (missing_required v).
Proof.
  unfold missing_required.
  apply reads_bind; [apply reads_get|intros uid].
  apply reads_bind; [apply reads_truthy|intros b].
  destruct b; simpl; [|apply reads_ret].
  apply reads_bind; [apply reads_get|intros n].
  apply reads_bind; [apply reads_truthy|intros b]. apply reads_ret.
Qed.

(** A step whose outcome is not known, but which only reads: either it
    raises, and the run ends in the same world, or the run goes on. *)
Ltac read_step lem :=
  match goal with
  | |- context [bind ?m ?k ?w] =>
      let r := fresh "r" in
      let w' := fresh "w" in
      let E := fresh "E" in
      let H := fresh "H" in
      destruct (m w) as [r w'] eqn:E;
      pose proof (lem w) as H; rewrite E in H; simpl in H; subst w';
      destruct r;
      [ rewrite (bind_ok _ _ _ _ _ E)
      | rewrite (bind_raise _ _ _ _ _ E) ];
      clear E
  end.

Section ValidateShape.
Variables (h : list obj) (total : value) (lg : list (level * string))
          (ck : nat -> string) (tk : nat).

Lemma validate_user_shape v w :
  validating h total lg ck tk w ->
  validating h total lg ck tk (snd (validate_user (VRef (length h + 1)) v w)).
Proof.
  intros (errs & a & b & ->).
  unfold validate_user, validation_store, validation_obj.
  read_step (reads_missing_required v); [|repeat eexists].
  destruct a0.
  all: repeat first [ rewrite bind_assoc | run_step ].
  all: (read_step (reads_get v "email_domain"); [|repeat eexists]).
  all: (read_step (reads_truthy a0); [|repeat eexists]).
  all: destruct a1; cbn [negb].
  all: repeat first [ rewrite bind_assoc | run_step ].
  all: try (read_step (reads_subscript v "user_id"); [|repeat eexists]).
  all: repeat first [ rewrite bind_assoc | run_step ].
  all: unfold increment.
  all: repeat first [ rewrite bind_assoc | run_step | step_with ltac:(reflexivity) ].
  all: erewrite store_new by reflexivity.
  all: repeat eexists.
Qed.
End ValidateShape.

Lemma validate_loop_shape h total lg ck tk xs :
  forall w,
    validating h total lg ck tk w ->
    validating h total lg ck tk
      (snd (for_each xs (validate_user (VRef (length h + 1))) w)).
Proof.
  induction xs as [|x xs IH]; intros w Hw; [exact Hw|].
  simpl for_each. unfold bind.
  pose proof (validate_user_shape h total lg ck tk x w Hw) as Hx.
  destruct (validate_user (VRef (length h + 1)) x w) as [[[]|e] w1]; simpl in Hx.
  - apply IH. exact Hx.
  - exact Hx.
Qed.

Ltac frame_done :=
  simpl; rewrite ?app_nil_r;
  split;
  [ first [ reflexivity | apply prefix_app_r; reflexivity ]
  | first [ discriminate | intros ? [= <-]; reflexivity ] ].

(** Validate writes only to the two objects it allocates, and returns the
    second of them. *)
Lemma validate_data_frame args w :
  heap w `prefix_of` heap (snd (validate_data args w)) /\
  forall v, fst (validate_data args w) = Ok v -> v = VRef (length (heap w) + 1).
Proof.
  destruct w as [h lg ck tk].
  destruct args as [|t [|? ?]]; try (split; [reflexivity|discriminate]).
  unfold validate_data. rewrite (world_nil h lg). run_step.
  read_step (reads_subscript t "transformed_users"); [|frame_done].
  read_step (reads_len a); [|frame_done].
  run_step. run_step.
  read_step (reads_iterate a); [|frame_done].
  match goal with
  | |- context [bind (for_each ?xs ?body) ?k ?w] =>
      pose proof (validate_loop_shape h a0
                    (lg ++ [(INFO, "Starting data validation...")]) ck tk xs w) as Hloop;
      destruct (for_each xs body w) as [[[]|e] w1] eqn:E
  end.
  - destruct Hloop as (errs & a2 & b & Hw1); [repeat eexists|].
    simpl in Hw1. subst w1. rewrite (bind_ok _ _ _ _ _ E).
    unfold validation_store, validation_obj.
    repeat run_step. rewrite ret_run. frame_done.
  - destruct Hloop as (errs & a2 & b & Hw1); [repeat eexists|].
    simpl in Hw1. subst w1. rewrite (bind_raise _ _ _ _ _ E). frame_done.
Qed.

(** ** The tasks on any world *)

Lemma read_transformed_collection h tdata ts :
  read_transformed_data h tdata = Some ts ->
  exists vs, read_collection h tdata "transformed_users" = Some vs /\
             length vs = length ts.
Proof.
  unfold read_transformed_data. intros H.
  destruct (read_collection h tdata "transformed_users") as [vs|]; simpl in H;
    [|discriminate].
  exists vs. split; [reflexivity|]. apply mapM_Some in H.
  eapply Forall2_length. exact H.
Qed.

Lemma transform_data_spec w raw us :
  read_raw_data (heap w) raw = Some us ->
  Forall (fun u => has_at u = true) us ->
  exists out w',
    transform_data [raw] w = (Ok out, w') /\
    read_transformed_data (heap w') out
      = Some (transformed_from (clock w) (ticks w) us) /\
    heap w `prefix_of` heap w' /\
    clock w' = clock w /\ ticks w' = (ticks w + length us)%nat.
Proof.
  destruct w as [h lg ck tk]. simpl. intros Hraw Hat.
  eexists _, _. split; [apply transform_data_ok; eassumption|]. simpl.
  split; [|split; [apply prefix_app_r; reflexivity|split; reflexivity]].
  rewrite <- (length_transformed_from ck tk us). apply read_transform_objects.
Qed.

Lemma validate_data_spec w tdata ts :
  read_transformed_data (heap w) tdata = Some ts ->
  exists out w' msgs,
    validate_data [tdata] w = (Ok out, w') /\
    read_validation_results (heap w') out
      = Some (Data.mk_validation_results (Z.of_nat (length ts)) (count_valid ts)
                (count_invalid ts) (concat msgs)) /\
    Forall2 (fun t m => exists shown, m = messages shown t) ts msgs /\
    heap w `prefix_of` heap w' /\
    clock w' = clock w /\ ticks w' = ticks w.
Proof.
  destruct w as [h lg ck tk]. simpl. intros Hread.
  destruct (validate_data_ok h lg ck tk tdata ts Hread) as (msgs & Hmsgs & Hrun).
  eexists _, _, msgs. split; [exact Hrun|]. simpl.
  split; [apply read_validation_store|]. split; [exact Hmsgs|].
  split; [apply prefix_app_r; reflexivity|split; reflexivity].
Qed.

Lemma load_data_spec w tdata vres vs r :
  read_collection (heap w) tdata "transformed_users" = Some vs ->
  read_validation_results (heap w) vres = Some r ->
  exists out w',
    load_data [tdata; vres] w = (Ok out, w') /\
    read_loading_summary (heap w') out
      = Some (Data.mk_loading_summary (Z.of_nat (length vs)) (clock w (ticks w))
                                      "completed") /\
    log w' = log w ++ load_log r (length vs) /\
    heap w `prefix_of` heap w'.
Proof.
  destruct w as [h lg ck tk]. simpl. intros Ht Hr.
  eexists _, _. split; [eapply load_data_ok; eassumption|]. simpl.
  split; [apply read_summary_obj|]. split; [reflexivity|].
  apply prefix_app_r. reflexivity.
Qed.

Lemma messages_valid shown t : is_valid t = true -> messages shown t = [].
Proof.
  unfold is_valid, messages. intros H. apply andb_prop in H as [H1 H2].
  apply negb_true_iff in H1, H2. rewrite H1, H2. reflexivity.
Qed.

Lemma messages_invalid shown t : is_valid t = false -> messages shown t <> [].
Proof.
  unfold is_valid, messages. intros H.
  destruct (lacks_required t); [discriminate|].
  destruct (lacks_domain t); [discriminate|]. discriminate.
Qed.

Lemma no_messages ts msgs :
  Forall2 (fun t m => exists shown, m = messages shown t) ts msgs ->
  Forall (fun t => is_valid t = true) ts ->
  concat msgs = [].
Proof.
  induction 1 as [|t m ts msgs (shown & ->) _ IH]; intros Hv; [reflexivity|].
  inversion Hv; subst. simpl. rewrite messages_valid by assumption. auto.
Qed.

(** The four upstream tasks on the sample data, from any world. *)
Lemma upstream_run w :
  exists raw t v s w1 w2 w3 w4,
    extract_data [] w = (Ok raw, w1) /\
    transform_data [raw] w1 = (Ok t, w2) /\
    validate_data [t] w2 = (Ok v, w3) /\
    load_data [t; v] w3 = (Ok s, w4) /\
    read_raw_data (heap w1) raw = Some sample_users /\
    read_transformed_data (heap w2) t
      = Some (transformed_from (clock w) (ticks w) sample_users) /\
    read_validation_results (heap w3) v
      = Some (Data.mk_validation_results 3 3 0 []) /\
    read_validation_results (heap w4) v
      = Some (Data.mk_validation_results 3 3 0 []) /\
    read_loading_summary (heap w4) s
      = Some (Data.mk_loading_summary 3 (clock w (ticks w + 3)) "completed").
Proof.
  destruct w as [h lg ck tk]. simpl.
  pose proof (extract_data_run h lg ck tk) as E.
  pose proof (read_sample h) as R1.
  set (w1 := mkWorld (h ++ sample_objects (length h))
               (lg ++ [(INFO, "Starting data extraction...");
                       (INFO, "Extracted 3 user records")]) ck tk) in *.
  assert (Hat : Forall (fun u => has_at u = true) sample_users)
    by (repeat constructor).
  destruct (transform_data_spec w1 _ _ R1 Hat)
    as (t & w2 & T & R2 & P2 & C2 & K2).
  destruct (validate_data_spec w2 _ _ R2)
    as (v & w3 & msgs & V & R3 & Hmsgs & P3 & C3 & K3).
  assert (Hvalid : Forall (fun t => is_valid t = true)
                          (transformed_from (clock w1) (ticks w1) sample_users))
    by (repeat constructor).
  rewrite (no_messages _ _ Hmsgs Hvalid) in R3.
  destruct (read_transformed_collection _ _ _ R2) as (vs & Hvs & Hlen).
  apply (read_collection_stable _ _ P3) in Hvs.
  destruct (load_data_spec w3 _ _ _ _ Hvs R3) as (s & w4 & L & R4 & _ & P4).
  exists (VRef (length h + 4)), t, v, s, w1, w2, w3, w4.
  split; [exact E|]. split; [exact T|]. split; [exact V|]. split; [exact L|].
  split; [exact R1|]. split; [exact R2|]. split; [exact R3|].
  split; [exact (read_validation_results_stable _ _ P4 _ _ R3)|].
  rewrite R4, Hlen, C3, K3, C2, K2. reflexivity.
Qed.

(** * The claims of the specification *)

(** ** Extract *)

(** C8: Extract takes no arguments and, from every world, returns raw data
    with exactly three records, whose identifiers are 1, 2 and 3; a call
    with an argument is rejected. *)
Theorem extract_data_three_records (w : world) :
  exists out w' us,
    extract_data [] w = (Ok out, w') /\
    read_raw_data (heap w') out = Some us /\
    length us = 3%nat /\
    map Data.id us = [1; 2; 3]%Z /\
    forall a args, extract_data (a :: args) w = (Raise TypeError, w).
Proof.
  destruct w as [h lg ck tk].
  eexists _, _, sample_users.
  split; [apply extract_data_run|].
  split; [apply read_sample|].
  repeat split.
Qed.

(** ** Transform *)

Lemma transformed_from_fields ck tk us :
  Forall (fun u => Str.contains "@" (Data.email u) = true) us ->
  Forall2 (fun u t =>
      Data.full_name t = Str.upper (Data.name u) /\
      exists rest,
        Str.after "@" (Data.email u) = Some rest /\
        Data.email_domain t = Str.before "@" rest /\
        (Str.count "@" (Data.email u) = 1%nat -> Data.email_domain t = rest))
    us (transformed_from ck tk us).
Proof.
  intros Hat. revert tk.
  induction Hat as [|u us Hu _ IH]; intros tk; simpl; constructor; [|apply IH].
  split; [reflexivity|].
  apply after_contains in Hu as [rest Hrest]. exists rest.
  split; [exact Hrest|]. simpl. unfold second_segment. rewrite Hrest. simpl.
  split; [reflexivity|]. intros Hc.
  apply after_single in Hc as (r & Hr & Hnone).
  rewrite Hrest in Hr. injection Hr as <-. apply before_whole. exact Hnone.
Qed.

(** C3, as amended: when every raw record's email has an '@', Transform
    returns transformed data in which each record has the uppercase of the
    name as full_name, and as email_domain the text between the first '@'
    of the email and the next '@', or the end of the email when there is
    no other: the text after the '@' when the email has exactly one. *)
Theorem transform_data_fields (w : world) (raw : value) (us : list Data.raw_user)
  (Hraw : read_raw_data (heap w) raw = Some us)
  (Hat : Forall (fun u => Str.contains "@" (Data.email u) = true) us) :
  exists out w' ts,
    transform_data [raw] w = (Ok out, w') /\
    read_transformed_data (heap w') out = Some ts /\
    Forall2 (fun u t =>
        Data.full_name t = Str.upper (Data.name u) /\
        exists rest,
          Str.after "@" (Data.email u) = Some rest /\
          Data.email_domain t = Str.before "@" rest /\
          (Str.count "@" (Data.email u) = 1%nat -> Data.email_domain t = rest))
      us ts.
Proof.
  destruct (transform_data_spec w raw us Hraw Hat) as (out & w' & Hrun & Hread & _).
  exists out, w', (transformed_from (clock w) (ticks w) us).
  split; [exact Hrun|]. split; [exact Hread|].
  apply transformed_from_fields. exact Hat.
Qed.

Lemma at_dichotomy us :
  Forall (fun u => has_at u = true) us \/ Exists (fun u => has_at u = false) us.
Proof.
  induction us as [|u us [IH|IH]].
  - left. constructor.
  - destruct (has_at u) eqn:Hu.
    + left. constructor; assumption.
    + right. constructor. exact Hu.
  - right. apply Exists_cons_tl. exact IH.
Qed.

(** ** Validate *)

(** C5: on every collection of transformed records, Validate returns
    results whose valid and invalid counts add up to total_records, which
    is the length of the collection. *)
Theorem validate_data_counts (w : world) (tdata : value)
  (ts : list Data.transformed_user)
  (Hread : read_transformed_data (heap w) tdata = Some ts) :
  exists out w' r,
    validate_data [tdata] w = (Ok out, w') /\
    read_validation_results (heap w') out = Some r /\
    (Data.valid_records r + Data.invalid_records r)%Z = Data.total_records r /\
    Data.total_records r = Z.of_nat (length ts).
Proof.
  destruct (validate_data_spec w tdata ts Hread)
    as (out & w' & msgs & Hrun & Hres & _).
  eexists out, w', _. split; [exact Hrun|]. split; [exact Hres|].
  simpl. split; [apply count_total|reflexivity].
Qed.

Lemma falsy_invalid t :
  Data.user_id t = 0%Z \/ Data.full_name t = "" \/ Data.email_domain t = "" ->
  is_valid t = false.
Proof.
  unfold is_valid, lacks_required, lacks_domain.
  intros [-> | [-> | ->]]; simpl.
  - reflexivity.
  - rewrite orb_true_r. reflexivity.
  - apply andb_false_r.
Qed.

(** C10: Validate tests the truth value of the fields.  A transformed
    record that has all its fields, but whose user_id is 0 or whose
    full_name or email_domain is the empty string, is counted in
    invalid_records and has at least one message in validation_errors. *)
Theorem validate_data_truthiness (w : world) (tdata : value)
  (ts : list Data.transformed_user)
  (Hread : read_transformed_data (heap w) tdata = Some ts) :
  exists out w' r msgs,
    validate_data [tdata] w = (Ok out, w') /\
    read_validation_results (heap w') out = Some r /\
    Data.invalid_records r
      = Z.of_nat (length (List.filter (fun t => negb (is_valid t)) ts)) /\
    Data.validation_errors r = concat msgs /\
    Forall2 (fun t m =>
        Data.user_id t = 0%Z \/ Data.full_name t = "" \/ Data.email_domain t = "" ->
        is_valid t = false /\ m <> [])
      ts msgs.
Proof.
  destruct (validate_data_spec w tdata ts Hread)
    as (out & w' & msgs & Hrun & Hres & Hmsgs & _).
  eexists out, w', _, msgs. split; [exact Hrun|]. split; [exact Hres|].
  simpl. split; [reflexivity|]. split; [reflexivity|].
  eapply Forall2_impl; [exact Hmsgs|].
  intros t m (shown & ->) Hf. apply falsy_invalid in Hf. split; [exact Hf|].
  apply messages_invalid. exact Hf.
Qed.

(** C7: from every world, Extract, then Transform, then Validate on the
    sample data yield validation results with 3 valid records, no invalid
    record and no error message. *)
Theorem validate_sample (w : world) :
  exists raw w1 t w2 v w3,
    extract_data [] w = (Ok raw, w1) /\
    transform_data [raw] w1 = (Ok t, w2) /\
    validate_data [t] w2 = (Ok v, w3) /\
    read_validation_results (heap w3) v
      = Some (Data.mk_validation_results 3 3 0 []).
Proof.
  destruct (upstream_run w)
    as (raw & t & v & s & w1 & w2 & w3 & w4 & E & T & V & _ & _ & _ & R & _).
  exists raw, w1, t, w2, v, w3. auto.
Qed.

(** ** Load *)

Lemma load_warnings_level r : Forall (fun l => fst l = WARNING) (load_warnings r).
Proof.
  unfold load_warnings. destruct (Z.ltb 0 (Data.invalid_records r)); constructor.
  - reflexivity.
  - induction (Data.validation_errors r); simpl; constructor; auto.
Qed.

(** C6: for every transformed data and every validation results, Load
    returns a summary whose records_processed is the length of the
    transformed collection and whose status is "completed".  The
    validation results only decide which warnings are logged between the
    first and the last log line: none without invalid records. *)
Theorem load_data_summary (w : world) (tdata vres : value) (vs : list value)
  (r : Data.validation_results)
  (Ht : read_collection (heap w) tdata "transformed_users" = Some vs)
  (Hr : read_validation_results (heap w) vres = Some r) :
  exists out w' s,
    load_data [tdata; vres] w = (Ok out, w') /\
    read_loading_summary (heap w') out = Some s /\
    Data.records_processed s = Z.of_nat (length vs) /\
    Data.status s = "completed" /\
    log w' = log w ++ (INFO, "Starting data loading...") :: load_warnings r
             ++ [(INFO, "Successfully loaded " +:+ Str.of_Z (Z.of_nat (length vs))
                        +:+ " records")] /\
    Forall (fun l => fst l = WARNING) (load_warnings r) /\
    ((Data.invalid_records r <= 0)%Z -> load_warnings r = []).
Proof.
  destruct (load_data_spec w tdata vres vs r Ht Hr)
    as (out & w' & Hrun & Hs & Hlog & _).
  eexists out, w', _. split; [exact Hrun|]. split; [exact Hs|].
  simpl. split; [reflexivity|]. split; [reflexivity|].
  split; [exact Hlog|]. split; [apply load_warnings_level|].
  intros Hle. unfold load_warnings.
  destruct (Z.ltb_spec 0 (Data.invalid_records r)); [lia|reflexivity].
Qed.

(** ** What a task returns *)

Lemma bind_inv {A B} (m : M A) (k : A -> M B) w v w' :
  bind m k w = (Ok v, w') ->
  exists a w1, m w = (Ok a, w1) /\ k a w1 = (Ok v, w').
Proof.
  unfold bind. destruct (m w) as [[a|e] w1]; [eauto|discriminate].
Qed.

Lemma returns_ret {A} (a : A) : returns a (ret a).
Proof. intros w v w' [= <- _]. reflexivity. Qed.

Lemma returns_raise {A} (a : A) e : returns a (raise e).
Proof. intros w v w' [=]. Qed.

Lemma returns_bind {A B} (b : B) (m : M A) (k : A -> M B) :
  (forall a, returns b (k a)) -> returns b (bind m k).
Proof.
  intros Hk w v w' H. apply bind_inv in H as (a & w1 & _ & H). eapply Hk, H.
Qed.

Lemma fresh_raise e : returns_fresh (raise e).
Proof. intros w v w' [=]. Qed.

Lemma fresh_bind {A} (m : M A) (k : A -> M value) :
  keeps_store m -> (forall a, returns_fresh (k a)) -> returns_fresh (bind m k).
Proof.
  intros Hm Hk w v w' H. apply bind_inv in H as (a & w1 & E & H).
  specialize (Hm w). rewrite E in Hm. simpl in Hm.
  destruct (Hk a w1 v w' H) as (l & -> & Hl). exists l. split; [reflexivity|].
  rewrite <- Hm. exact Hl.
Qed.

Lemma fresh_alloc o (k : value -> M value) :
  (forall x, returns x (k x)) -> returns_fresh (bind (alloc o) k).
Proof.
  intros Hk w v w' H. apply bind_inv in H as (a & w1 & E & H).
  injection E as <- <-. apply Hk in H as ->. eauto.
Qed.

Lemma load_data_fresh args : returns_fresh (load_data args).
Proof.
  unfold load_data.
  destruct args as [|t [|v [|? ?]]]; try apply fresh_raise.
  do 7 (apply fresh_bind; [auto 20 with store|intros ?]).
  apply fresh_alloc. intros x.
  do 3 (apply returns_bind; intros ?). apply returns_ret.
Qed.

Lemma send_notification_returns args :
  returns (VStr "Notification sent successfully") (send_notification args).
Proof.
  unfold send_notification.
  destruct args as [|s [|v [|? ?]]]; try apply returns_raise.
  do 12 (apply returns_bind; intros ?). apply returns_ret.
Qed.

(** C9: Validate, Load and Notify write to no object that was in the store
    when they were called, whatever their arguments: every such object,
    so every input collection and record, is the same after the call.
    What Validate and Load return is an object they allocated; what Notify
    returns is a string. *)
Theorem tasks_keep_their_inputs (args : list value) (w : world) (l : nat) (o : obj)
  (Hl : heap w !! l = Some o) :
  heap (snd (validate_data args w)) !! l = Some o /\
  heap (snd (load_data args w)) !! l = Some o /\
  heap (snd (send_notification args w)) !! l = Some o /\
  (forall v, fst (validate_data args w) = Ok v ->
             exists l', v = VRef l' /\ length (heap w) <= l') /\
  (forall v, fst (load_data args w) = Ok v ->
             exists l', v = VRef l' /\ length (heap w) <= l') /\
  (forall v, fst (send_notification args w) = Ok v ->
             v = VStr "Notification sent successfully").
Proof.
  destruct (validate_data_frame args w) as [Hv Hvr].
  split; [exact (prefix_lookup_Some _ _ _ _ Hl Hv)|].
  split; [exact (prefix_lookup_Some _ _ _ _ Hl (load_data_extends args w))|].
  split; [rewrite send_notification_keeps; exact Hl|].
  split; [|split].
  - intros v Hr. apply Hvr in Hr as ->. eexists. split; [reflexivity|lia].
  - intros v Hr. destruct (load_data args w) as [r w'] eqn:E. simpl in Hr. subst r.
    exact (load_data_fresh args w v w' E).
  - intros v Hr. destruct (send_notification args w) as [r w'] eqn:E.
    simpl in Hr. subst r. exact (send_notification_returns args w v w' E).
Qed.

(** ** The failure conditions *)

(** C4, as amended: on inputs of the data model (records that have all
    their fields, of the types the data model gives them; calls with the
    declared number of arguments), Transform raises IndexError exactly
    when some raw record's email has no '@', and raises nothing else;
    Extract, Validate, Load and Notify raise nothing. *)
Theorem only_transform_fails (w : world) (raw tdata vres summ : value)
  (us : list Data.raw_user) (ts : list Data.transformed_user)
  (r : Data.validation_results) (s : Data.loading_summary)
  (Hraw : read_raw_data (heap w) raw = Some us)
  (Ht : read_transformed_data (heap w) tdata = Some ts)
  (Hr : read_validation_results (heap w) vres = Some r)
  (Hs : read_loading_summary (heap w) summ = Some s) :
  ((exists w', transform_data [raw] w = (Raise IndexError, w')) <->
   Exists (fun u => Str.contains "@" (Data.email u) = false) us) /\
  (forall e w', transform_data [raw] w = (Raise e, w') -> e = IndexError) /\
  (exists out w', extract_data [] w = (Ok out, w')) /\
  (exists out w', validate_data [tdata] w = (Ok out, w')) /\
  (exists out w', load_data [tdata; vres] w = (Ok out, w')) /\
  (exists out w', send_notification [summ; vres] w = (Ok out, w')).
Proof.
  assert (Hfail : Exists (fun u => has_at u = false) us ->
                  exists w', transform_data [raw] w = (Raise IndexError, w')).
  { destruct w as [h lg ck tk]. apply transform_data_fail. exact Hraw. }
  assert (Hok : Forall (fun u => has_at u = true) us ->
                exists out w', transform_data [raw] w = (Ok out, w')).
  { intros Hat. destruct (transform_data_spec w raw us Hraw Hat) as (out & w' & H & _).
    eauto. }
  split; [split|split; [|split; [|split; [|split]]]].
  - intros [w' Hw']. destruct (at_dichotomy us) as [Hat|Hat]; [|exact Hat].
    destruct (Hok Hat) as (out & w'' & H). congruence.
  - exact Hfail.
  - intros e w' He. destruct (at_dichotomy us) as [Hat|Hat].
    + destruct (Hok Hat) as (out & w'' & H). congruence.
    + destruct (Hfail Hat) as (w'' & H). congruence.
  - destruct w as [h lg ck tk]. eexists _, _. apply extract_data_run.
  - destruct (validate_data_spec w tdata ts Ht) as (out & w' & _ & H & _). eauto.
  - destruct (read_transformed_collection _ _ _ Ht) as (vs & Hvs & _).
    destruct (load_data_spec w tdata vres vs r Hvs Hr) as (out & w' & H & _). eauto.
  - destruct w as [h lg ck tk]. eexists _, _.
    eapply send_notification_ok; eassumption.
Qed.

(** ** The run of the workflow *)

Lemma dag_run w :
  exists raw t v s w',
    dag_upstream w = (Ok (raw, t, v, s), w') /\
    read_validation_results (heap w') v
      = Some (Data.mk_validation_results 3 3 0 []) /\
    read_loading_summary (heap w') s
      = Some (Data.mk_loading_summary 3 (clock w (ticks w + 3)) "completed") /\
    dag w = (Raise TypeError, w').
Proof.
  destruct (upstream_run w)
    as (raw & t & v & s & w1 & w2 & w3 & w4 & E & T & V & L & _ & _ & _ & Rv & Rs).
  assert (Hup : dag_upstream w = (Ok (raw, t, v, s), w4)).
  { unfold dag_upstream.
    rewrite (bind_ok _ _ _ _ _ E), (bind_ok _ _ _ _ _ T), (bind_ok _ _ _ _ _ V),
      (bind_ok _ _ _ _ _ L). reflexivity. }
  exists raw, t, v, s, w4. split; [exact Hup|]. split; [exact Rv|].
  split; [exact Rs|]. unfold dag. rewrite (bind_ok _ _ _ _ _ Hup). reflexivity.
Qed.

(** C1: on the sample data the four upstream tasks complete and the
    loading summary reports 3 processed records, but the run ends in a
    TypeError at the call of the notification task and yields no
    notification string; called with the validation results as well, the
    task returns "Notification sent successfully". *)
Theorem dag_sample_run_fails_at_notify (w : world) :
  exists raw t v s w',
    dag_upstream w = (Ok (raw, t, v, s), w') /\
    (exists ls, read_loading_summary (heap w') s = Some ls /\
                Data.records_processed ls = 3%Z) /\
    dag w = (Raise TypeError, w') /\
    (exists w'', send_notification [s; v] w'
                 = (Ok (VStr "Notification sent successfully"), w'')).
Proof.
  destruct (dag_run w) as (raw & t & v & s & w' & Hup & Rv & Rs & Hdag).
  exists raw, t, v, s, w'. split; [exact Hup|].
  split; [eexists; split; [exact Rs|reflexivity]|]. split; [exact Hdag|].
  destruct w' as [h lg ck tk]. eexists.
  eapply send_notification_ok; eassumption.
Qed.

(** C2: the call that wires the notification task passes one argument,
    the loading summary, and not the validation results; the task has two
    parameters, so the call raises TypeError, and so does the run. *)
Theorem notify_wired_with_one_argument (w : world) :
  fst (dag w) = Raise TypeError /\
  forall s v w',
    notify_arguments s v = [s] /\
    send_notification (notify_arguments s v) w' = (Raise TypeError, w').
Proof.
  split.
  - destruct (dag_run w) as (raw & t & v & s & w' & _ & _ & _ & ->). reflexivity.
  - intros s v w'. split; reflexivity.
Qed.

(** * The tasks on concrete stores *)

(** C4 as the specification states it fails outside the data model.
    Transform raises AttributeError on a record whose email has an '@'
    and whose name is no string; Validate raises KeyError on a record
    without identifier and domain; Load and Notify raise KeyError on a
    dictionary without the keys they read. *)
Lemma tasks_raise_outside_data_model :
  fst (transform_data [VRef 6] untyped_world) = Raise AttributeError /\
  fst (validate_data [VRef 2] untyped_world) = Raise (KeyError "user_id") /\
  fst (load_data [VRef 2; VRef 3] untyped_world) = Raise (KeyError "invalid_records") /\
  fst (send_notification [VRef 3; VRef 3] untyped_world)
    = Raise (KeyError "records_processed").
Proof. repeat split; vm_compute; reflexivity. Qed.

(** The run of the workflow from the initial world. *)
Example dag_from_init : fst (dag (init sample_clock)) = Raise TypeError.
Proof. vm_compute. reflexivity. Qed.

Example upstream_from_init :
  fst (dag_upstream (init sample_clock))
  = Ok (VRef 4, VRef 9, VRef 11, VRef 12).
Proof. vm_compute. reflexivity. Qed.

(** Validate on records with a field that is present and false. *)
Example validate_falsy_records :
  read_validation_results (heap validated_world) (VRef 7) = Some falsy_results.
Proof. vm_compute. reflexivity. Qed.

(** Transform on an email without '@'. *)
Example transform_without_at :
  fst (transform_data [VRef 2] no_at_world) = Raise IndexError.
Proof. vm_compute. reflexivity. Qed.

(** Outside the data model Validate can raise: a record that has no
    'user_id' key and no email domain is first reported, through [get],
    and then subscripted for the second message. *)
Example validate_without_user_id :
  fst (validate_data [VRef 2] partial_world) = Raise (KeyError "user_id").
Proof. vm_compute. reflexivity. Qed.

(** C3 as the specification states it fails on an email with two '@':
    for "eve@mail@example.com" Transform gives the domain "mail", which is
    neither the text after the first '@' nor the text after the last. *)
Lemma transform_domain_not_text_after_at :
  exists u t out w',
    read_raw_data (heap two_at_world) (VRef 2) = Some [u] /\
    Data.email u = "eve@mail@example.com" /\
    Str.contains "@" (Data.email u) = true /\
    transform_data [VRef 2] two_at_world = (Ok out, w') /\
    read_transformed_data (heap w') out = Some [t] /\
    Data.email_domain t = "mail" /\
    Str.after "@" (Data.email u) = Some "mail@example.com" /\
    Str.after_last "@" (Data.email u) = Some "example.com" /\
    Str.after "@" (Data.email u) <> Some (Data.email_domain t) /\
    Str.after_last "@" (Data.email u) <> Some (Data.email_domain t).
Proof.
  exists (Data.mk_raw_user 7 "Eve" "eve@mail@example.com"),
         (Data.mk_transformed_user 7 "EVE" "mail" (sample_clock 0)).
  eexists _, _.
  split; [reflexivity|]. split; [reflexivity|]. split; [reflexivity|].
  split; [vm_compute; reflexivity|].
  split; [vm_compute; reflexivity|].
  repeat split; discriminate.
Qed.

Lemma transform_data_fields_witness :
  read_raw_data (heap two_at_world) (VRef 2)
    = Some [Data.mk_raw_user 7 "Eve" "eve@mail@example.com"] /\
  exists out w' ts,
    transform_data [VRef 2] two_at_world = (Ok out, w') /\
    read_transformed_data (heap w') out = Some ts /\
    Forall2 (fun u t =>
        Data.full_name t = Str.upper (Data.name u) /\
        exists rest,
          Str.after "@" (Data.email u) = Some rest /\
          Data.email_domain t = Str.before "@" rest /\
          (Str.count "@" (Data.email u) = 1%nat -> Data.email_domain t = rest))
      [Data.mk_raw_user 7 "Eve" "eve@mail@example.com"] ts.
Proof.
  split; [reflexivity|].
  apply (transform_data_fields two_at_world (VRef 2)
           [Data.mk_raw_user 7 "Eve" "eve@mail@example.com"]).
  - reflexivity.
  - repeat constructor.
Defined.

Lemma only_transform_fails_witness :
  read_raw_data (heap sample_world) (VRef 4) = Some sample_users /\
  ((exists w', transform_data [VRef 4] sample_world = (Raise IndexError, w')) <->
   Exists (fun u => Str.contains "@" (Data.email u) = false) sample_users) /\
  (forall e w', transform_data [VRef 4] sample_world = (Raise e, w') -> e = IndexError) /\
  (exists out w', extract_data [] sample_world = (Ok out, w')) /\
  (exists out w', validate_data [VRef 9] sample_world = (Ok out, w')) /\
  (exists out w', load_data [VRef 9; VRef 11] sample_world = (Ok out, w')) /\
  (exists out w', send_notification [VRef 12; VRef 11] sample_world = (Ok out, w')).
Proof.
  split; [vm_compute; reflexivity|].
  apply (only_transform_fails sample_world (VRef 4) (VRef 9) (VRef 11) (VRef 12)
           sample_users (transformed_from sample_clock 0 sample_users)
           (Data.mk_validation_results 3 3 0 [])
           (Data.mk_loading_summary 3 (sample_clock 3) "completed")).
  - vm_compute; reflexivity.
  - vm_compute; reflexivity.
  - vm_compute; reflexivity.
  - vm_compute; reflexivity.
Defined.

Lemma validate_data_counts_witness :
  read_transformed_data (heap (world_of_transformed falsy_records)) (VRef 5)
    = Some falsy_records /\
  exists out w' r,
    validate_data [VRef 5] (world_of_transformed falsy_records) = (Ok out, w') /\
    read_validation_results (heap w') out = Some r /\
    (Data.valid_records r + Data.invalid_records r)%Z = Data.total_records r /\
    Data.total_records r = Z.of_nat (length falsy_records).
Proof.
  split; [vm_compute; reflexivity|].
  apply (validate_data_counts (world_of_transformed falsy_records) (VRef 5)
           falsy_records).
  vm_compute; reflexivity.
Defined.

Lemma validate_data_truthiness_witness :
  read_transformed_data (heap (world_of_transformed falsy_records)) (VRef 5)
    = Some falsy_records /\
  exists out w' r msgs,
    validate_data [VRef 5] (world_of_transformed falsy_records) = (Ok out, w') /\
    read_validation_results (heap w') out = Some r /\
    Data.invalid_records r
      = Z.of_nat (length (List.filter (fun t => negb (is_valid t)) falsy_records)) /\
    Data.validation_errors r = concat msgs /\
    Forall2 (fun t m =>
        Data.user_id t = 0%Z \/ Data.full_name t = "" \/ Data.email_domain t = "" ->
        is_valid t = false /\ m <> [])
      falsy_records msgs.
Proof.
  split; [vm_compute; reflexivity|].
  apply (validate_data_truthiness (world_of_transformed falsy_records) (VRef 5)
           falsy_records).
  vm_compute; reflexivity.
Defined.

Lemma load_data_summary_witness :
  read_collection (heap validated_world) (VRef 5) "transformed_users"
    = Some [VRef 0; VRef 1; VRef 2; VRef 3] /\
  read_validation_results (heap validated_world) (VRef 7) = Some falsy_results /\
  exists out w' s,
    load_data [VRef 5; VRef 7] validated_world = (Ok out, w') /\
    read_loading_summary (heap w') out = Some s /\
    Data.records_processed s = 4%Z /\
    Data.status s = "completed" /\
    log w' = log validated_world
             ++ (INFO, "Starting data loading...") :: load_warnings falsy_results
             ++ [(INFO, "Successfully loaded 4 records")] /\
    Forall (fun l => fst l = WARNING) (load_warnings falsy_results) /\
    ((Data.invalid_records falsy_results <= 0)%Z -> load_warnings falsy_results = []).
Proof.
  split; [vm_compute; reflexivity|]. split; [vm_compute; reflexivity|].
  apply (load_data_summary validated_world (VRef 5) (VRef 7)
           [VRef 0; VRef 1; VRef 2; VRef 3] falsy_results).
  - vm_compute; reflexivity.
  - vm_compute; reflexivity.
Defined.

Lemma tasks_keep_their_inputs_witness :
  heap sample_world !! 9%nat = Some (ODict [("transformed_users", VRef 5)]) /\
  heap (snd (validate_data [VRef 9] sample_world)) !! 9%nat
    = Some (ODict [("transformed_users", VRef 5)]) /\
  heap (snd (load_data [VRef 9] sample_world)) !! 9%nat
    = Some (ODict [("transformed_users", VRef 5)]) /\
  heap (snd (send_notification [VRef 9] sample_world)) !! 9%nat
    = Some (ODict [("transformed_users", VRef 5)]) /\
  (forall v, fst (validate_data [VRef 9] sample_world) = Ok v ->
             exists l', v = VRef l' /\ length (heap sample_world) <= l') /\
  (forall v, fst (load_data [VRef 9] sample_world) = Ok v ->
             exists l', v = VRef l' /\ length (heap sample_world) <= l') /\
  (forall v, fst (send_notification [VRef 9] sample_world) = Ok v ->
             v = VStr "Notification sent successfully").
Proof.
  split; [vm_compute; reflexivity|].
  apply (tasks_keep_their_inputs [VRef 9] sample_world 9
           (ODict [("transformed_users", VRef 5)])).
  vm_compute; reflexivity.
Defined.

(** * Further properties of the tasks *)

(** ** Transform: order, identifiers, time stamps *)

Lemma transformed_from_lookup ck us :
  forall tk i u,
    us !! i = Some u ->
    transformed_from ck tk us !! i = Some (transformed_of u (ck (tk + i)%nat)).
Proof.
  induction us as [|u0 us IH]; intros tk i u Hi; [discriminate|].
  destruct i as [|i]; simpl in *.
  - injection Hi as ->. rewrite Nat.add_0_r. reflexivity.
  - rewrite (IH (S tk) i u Hi), Nat.add_succ_r. reflexivity.
Qed.

(** X1: Transform keeps the number and the order of the records, copies
    each identifier, and stamps the i-th record with the i-th reading of
    the clock it makes; it reads the clock once a record. *)
Theorem transform_data_records (w : world) (raw : value) (us : list Data.raw_user)
  (Hraw : read_raw_data (heap w) raw = Some us)
  (Hat : Forall (fun u => Str.contains "@" (Data.email u) = true) us) :
  exists out w' ts,
    transform_data [raw] w = (Ok out, w') /\
    read_transformed_data (heap w') out = Some ts /\
    length ts = length us /\
    (forall i u, us !! i = Some u ->
       exists t, ts !! i = Some t /\
                 Data.user_id t = Data.id u /\
                 Data.processed_at t = clock w (ticks w + i)%nat) /\
    ticks w' = (ticks w + length us)%nat /\
    clock w' = clock w.
Proof.
  destruct (transform_data_spec w raw us Hraw Hat)
    as (out & w' & Hrun & Hread & _ & Hck & Htk).
  exists out, w', (transformed_from (clock w) (ticks w) us).
  split; [exact Hrun|]. split; [exact Hread|].
  split; [apply length_transformed_from|].
  split; [|split; assumption].
  intros i u Hi. eexists. split; [apply transformed_from_lookup; exact Hi|].
  split; reflexivity.
Qed.

(** ** Transform: the shape of the derived fields *)

Lemma before_no_sep sep s : Str.contains sep (Str.before sep s) = false.
Proof.
  induction s as [|c s IH]; simpl; [reflexivity|].
  destruct (Ascii.eqb c sep) eqn:E; simpl; [reflexivity|].
  rewrite E. exact IH.
Qed.

Lemma upper_char_idem c : Str.upper_char (Str.upper_char c) = Str.upper_char c.
Proof. destruct c as [[] [] [] [] [] [] [] []]; reflexivity. Qed.

Lemma upper_idem s : Str.upper (Str.upper s) = Str.upper s.
Proof.
  induction s as [|c s IH]; simpl; [reflexivity|].
  rewrite upper_char_idem, IH. reflexivity.
Qed.

Lemma upper_length s : String.length (Str.upper s) = String.length s.
Proof. induction s as [|c s IH]; simpl; [reflexivity|]. rewrite IH. reflexivity. Qed.

Lemma upper_char_ascii c :
  (N_of_ascii (Str.upper_char c) <? 128)%N = (N_of_ascii c <? 128)%N.
Proof. destruct c as [[] [] [] [] [] [] [] []]; reflexivity. Qed.

Lemma upper_ascii s : ascii_text (Str.upper s) = ascii_text s.
Proof.
  induction s as [|c s IH]; simpl; [reflexivity|].
  rewrite upper_char_ascii, IH. reflexivity.
Qed.

Lemma transformed_from_shape ck us :
  forall tk,
    Forall2 (fun u t =>
        Str.contains "@" (Data.email_domain t) = false /\
        (ascii_text (Data.name u) = true ->
         ascii_text (Data.full_name t) = true /\
         Str.upper (Data.full_name t) = Data.full_name t /\
         String.length (Data.full_name t) = String.length (Data.name u)))
      us (transformed_from ck tk us).
Proof.
  induction us as [|u us IH]; intros tk; simpl; constructor; [|apply IH].
  simpl. split; [apply before_no_sep|]. intros Hascii.
  split; [rewrite upper_ascii; exact Hascii|].
  split; [apply upper_idem|apply upper_length].
Qed.

(** X2: in what Transform returns, no email_domain contains an '@'; and
    when the name of a raw record is ASCII text, the full_name made from
    it is ASCII text, is left unchanged by another uppercasing and has
    the length of the name. *)
Theorem transform_data_normalised (w : world) (raw : value) (us : list Data.raw_user)
  (Hraw : read_raw_data (heap w) raw = Some us)
  (Hat : Forall (fun u => Str.contains "@" (Data.email u) = true) us) :
  exists out w' ts,
    transform_data [raw] w = (Ok out, w') /\
    read_transformed_data (heap w') out = Some ts /\
    Forall2 (fun u t =>
        Str.contains "@" (Data.email_domain t) = false /\
        (ascii_text (Data.name u) = true ->
         ascii_text (Data.full_name t) = true /\
         Str.upper (Data.full_name t) = Data.full_name t /\
         String.length (Data.full_name t) = String.length (Data.name u)))
      us ts.
Proof.
  destruct (transform_data_spec w raw us Hraw Hat) as (out & w' & Hrun & Hread & _).
  exists out, w', (transformed_from (clock w) (ticks w) us).
  split; [exact Hrun|]. split; [exact Hread|]. apply transformed_from_shape.
Qed.

(** ** Validate: the list of messages *)

Lemma length_messages shown t :
  length (messages shown t)
  = ((if lacks_required t then 1 else 0) + (if lacks_domain t then 1 else 0))%nat.
Proof.
  unfold messages. destruct (lacks_required t), (lacks_domain t); reflexivity.
Qed.

Lemma messages_bounds ts msgs :
  Forall2 (fun t m => exists shown, m = messages shown t) ts msgs ->
  (count_invalid ts <= Z.of_nat (length (concat msgs)) <= 2 * count_invalid ts)%Z.
Proof.
  induction 1 as [|t m ts msgs (shown & ->) _ IH].
  - unfold count_invalid. simpl. lia.
  - rewrite count_invalid_cons. simpl concat.
    rewrite length_app, length_messages. unfold is_valid, bool_Z.
    destruct (lacks_required t), (lacks_domain t); simpl negb; simpl andb; lia.
Qed.

Lemma count_invalid_zero ts :
  count_invalid ts = 0%Z <-> Forall (fun t => is_valid t = true) ts.
Proof.
  induction ts as [|t ts IH].
  - split; [constructor|reflexivity].
  - rewrite count_invalid_cons.
    assert (0 <= count_invalid ts)%Z by (unfold count_invalid; lia).
    destruct (is_valid t) eqn:E; unfold bool_Z; simpl negb; split.
    + intros H0. constructor; [exact E|]. apply IH. lia.
    + intros Hf. inversion Hf; subst. apply IH in H3. lia.
    + lia.
    + intros Hf. inversion Hf; subst. congruence.
Qed.

(** X4: the list of messages Validate returns has between one and two
    entries for each invalid record: its length lies between
    invalid_records and twice invalid_records, and it is empty exactly
    when invalid_records is 0, which is when every record passes both
    tests. *)
Theorem validate_data_errors (w : world) (tdata : value)
  (ts : list Data.transformed_user)
  (Hread : read_transformed_data (heap w) tdata = Some ts) :
  exists out w' r,
    validate_data [tdata] w = (Ok out, w') /\
    read_validation_results (heap w') out = Some r /\
    (Data.invalid_records r <= Z.of_nat (length (Data.validation_errors r))
     <= 2 * Data.invalid_records r)%Z /\
    (Data.validation_errors r = [] <-> Data.invalid_records r = 0%Z) /\
    (Data.invalid_records r = 0%Z <-> Forall (fun t => is_valid t = true) ts).
Proof.
  destruct (validate_data_spec w tdata ts Hread)
    as (out & w' & msgs & Hrun & Hres & Hmsgs & _).
  eexists out, w', _. split; [exact Hrun|]. split; [exact Hres|]. simpl.
  pose proof (messages_bounds ts msgs Hmsgs) as Hb.
  split; [exact Hb|]. split; [|apply count_invalid_zero].
  split.
  - intros Hnil. rewrite Hnil in Hb. simpl in Hb. lia.
  - intros H0. rewrite H0 in Hb. destruct (concat msgs); [reflexivity|].
    simpl in Hb. lia.
Qed.

(** ** Transform, then Validate *)

Lemma upper_empty s : String.eqb (Str.upper s) "" = String.eqb s "".
Proof. destruct s; reflexivity. Qed.

Lemma is_valid_transformed_of u now : is_valid (transformed_of u now) = raw_valid u.
Proof.
  unfold is_valid, lacks_required, lacks_domain, raw_valid, transformed_of. simpl.
  rewrite upper_empty, negb_orb. reflexivity.
Qed.

Lemma count_invalid_transformed ck us :
  forall tk,
    count_invalid (transformed_from ck tk us)
    = Z.of_nat (length (List.filter (fun u => negb (raw_valid u)) us)).
Proof.
  induction us as [|u us IH]; intros tk; [reflexivity|].
  simpl transformed_from. rewrite count_invalid_cons, IH, is_valid_transformed_of.
  cbn [List.filter]. destruct (raw_valid u); cbn [negb bool_Z length]; lia.
Qed.

(** X7: on raw data whose emails all have an '@', Transform returns and
    Validate, run on what it returns, counts as invalid exactly the raw
    records whose identifier is 0, whose name is empty, or in whose email
    nothing stands between the first '@' and the next '@' or the end. *)
Theorem transform_then_validate (w : world) (raw : value) (us : list Data.raw_user)
  (Hraw : read_raw_data (heap w) raw = Some us)
  (Hat : Forall (fun u => Str.contains "@" (Data.email u) = true) us) :
  exists t w1 v w2 r,
    transform_data [raw] w = (Ok t, w1) /\
    validate_data [t] w1 = (Ok v, w2) /\
    read_validation_results (heap w2) v = Some r /\
    Data.total_records r = Z.of_nat (length us) /\
    Data.invalid_records r
      = Z.of_nat (length (List.filter
           (fun u => Z.eqb (Data.id u) 0 || String.eqb (Data.name u) ""
                     || String.eqb (Str.before "@" (default "" (Str.after "@" (Data.email u)))) "")
           us)).
Proof.
  destruct (transform_data_spec w raw us Hraw Hat) as (t & w1 & T & R1 & _).
  destruct (validate_data_spec w1 t _ R1) as (v & w2 & msgs & V & R2 & _).
  eexists t, w1, v, w2, _. split; [exact T|]. split; [exact V|].
  split; [exact R2|]. simpl.
  split; [rewrite length_transformed_from; reflexivity|].
  rewrite count_invalid_transformed. do 2 f_equal.
  clear. induction us as [|u us IH]; [reflexivity|]. simpl. rewrite IH.
  unfold raw_valid, second_segment. rewrite <- !negb_orb, negb_involutive.
  reflexivity.
Qed.

(** ** The four downstream tasks, composed *)

(** X8: on raw data whose emails all have an '@', Transform, Validate,
    Load and Notify, each called with the results the earlier ones
    returned and Notify with both of its arguments, all return; Notify
    gives its confirmation string, records_processed and total_records
    both are the number of raw records, and the summary is stamped with
    the clock reading that follows those of the records. *)
Theorem pipeline_completes (w : world) (raw : value) (us : list Data.raw_user)
  (Hraw : read_raw_data (heap w) raw = Some us)
  (Hat : Forall (fun u => Str.contains "@" (Data.email u) = true) us) :
  exists t v s w1 w2 w3 w4 r ls,
    transform_data [raw] w = (Ok t, w1) /\
    validate_data [t] w1 = (Ok v, w2) /\
    load_data [t; v] w2 = (Ok s, w3) /\
    send_notification [s; v] w3
      = (Ok (VStr "Notification sent successfully"), w4) /\
    read_validation_results (heap w4) v = Some r /\
    read_loading_summary (heap w4) s = Some ls /\
    Data.total_records r = Z.of_nat (length us) /\
    Data.records_processed ls = Z.of_nat (length us) /\
    Data.load_timestamp ls = clock w (ticks w + length us)%nat /\
    Data.status ls = "completed" /\
    heap w `prefix_of` heap w4.
Proof.
  destruct (transform_data_spec w raw us Hraw Hat)
    as (t & w1 & T & R1 & P1 & C1 & K1).
  destruct (validate_data_spec w1 t _ R1)
    as (v & w2 & msgs & V & R2 & _ & P2 & C2 & K2).
  destruct (read_transformed_collection _ _ _ R1) as (vs & Hvs & Hlen).
  apply (read_collection_stable _ _ P2) in Hvs.
  destruct (load_data_spec w2 _ _ _ _ Hvs R2) as (s & w3 & L & R3 & _ & P3).
  pose proof (read_validation_results_stable _ _ P3 _ _ R2) as R2'.
  destruct w3 as [h3 lg3 ck3 tk3]. simpl in *.
  eexists t, v, s, w1, w2, _, _, _, _.
  split; [exact T|]. split; [exact V|]. split; [exact L|].
  split; [eapply send_notification_ok; eassumption|]. simpl.
  split; [exact R2'|]. split; [exact R3|]. simpl.
  rewrite length_transformed_from in *.
  split; [reflexivity|]. split; [rewrite Hlen; reflexivity|].
  split; [rewrite C2, K2, C1, K1; reflexivity|]. split; [reflexivity|].
  etransitivity; [exact P1|]. etransitivity; [exact P2|exact P3].
Qed.

(** X9: Notify logs two INFO lines and nothing else: the announcement,
    then the template filled with records_processed, valid_records,
    invalid_records, load_timestamp and status, in this order, the
    integers in decimal; it leaves the store and the clock as they are. *)
Theorem send_notification_message (w : world) (summ vres : value)
  (s : Data.loading_summary) (r : Data.validation_results)
  (Hs : read_loading_summary (heap w) summ = Some s)
  (Hr : read_validation_results (heap w) vres = Some r) :
  send_notification [summ; vres] w =
  (Ok (VStr "Notification sent successfully"),
   mkWorld (heap w)
     (log w ++
      [(INFO, "Sending completion notification...");
       (INFO, notification_message
                (Str.of_Z (Data.records_processed s))
                (Str.of_Z (Data.valid_records r))
                (Str.of_Z (Data.invalid_records r))
                (Data.load_timestamp s) (Data.status s))])
     (clock w) (ticks w)).
Proof.
  destruct w as [h lg ck tk].
  exact (send_notification_ok h lg ck tk summ vres s r Hs Hr).
Qed.

(** ** Extract and Transform: writes to the store *)












(** ** Transform: the first email without an '@' *)

Lemma for_each_app xs ys body w :
  for_each (xs ++ ys) body w = bind (for_each xs body) (fun _ => for_each ys body) w.
Proof.
  revert w. induction xs as [|x xs IH]; intros w; simpl; [reflexivity|].
  rewrite bind_assoc.
  destruct (body x w) as [[[]|e] w1] eqn:E.
  - rewrite !(bind_ok _ _ _ _ _ E). apply IH.
  - rewrite !(bind_raise _ _ _ _ _ E). reflexivity.
Qed.

(** X12: Transform stops at the first record whose email has no '@': it
    raises IndexError after one clock reading for each record before it,
    logs no completion line, returns nothing, and does not look at the
    records that follow, whatever they are. *)
Theorem transform_data_stops (w : world) (raw : value) (vs1 vs2 : list value)
  (v : value) (good : list Data.raw_user) (bad : Data.raw_user)
  (Hc : read_collection (heap w) raw "users" = Some (vs1 ++ v :: vs2))
  (Hgood : mapM (read_raw_user (heap w)) vs1 = Some good)
  (Hat : Forall (fun u => Str.contains "@" (Data.email u) = true) good)
  (Hv : read_raw_user (heap w) v = Some bad)
  (Hbad : Str.contains "@" (Data.email bad) = false) :
  exists w',
    transform_data [raw] w = (Raise IndexError, w') /\
    ticks w' = (ticks w + length good)%nat /\
    clock w' = clock w /\
    log w' = log w ++ [(INFO, "Starting data transformation...")] /\
    heap w `prefix_of` heap w'.
Proof.
  destruct w as [h lg ck tk]. simpl in *.
  apply read_collection_inv in Hc as (l & d & lc & -> & Hl & Hd & Hlc).
  apply mapM_Some in Hgood.
  eexists. split.
  - rewrite (world_nil h lg). unfold transform_data.
    run_step. run_step.
    step_with ltac:(eapply subscript_old; eassumption).
    step_with ltac:(eapply iterate_old; eassumption).
    erewrite bind_raise; [reflexivity|].
    rewrite for_each_app.
    erewrite bind_ok by (eapply transform_loop_ok; eassumption).
    simpl for_each. erewrite bind_raise; [reflexivity|].
    unfold transform_step. erewrite bind_raise; [reflexivity|].
    exact (transform_user_fail h (OList _ :: _) _ ck _ v bad Hv Hbad).
  - simpl. repeat split. apply prefix_app_r. reflexivity.
Qed.

(** ** Validate: records with absent fields *)

Lemma field_opt_int_inv d k o :
  field_opt_int d k = Some o -> dict_lookup d k = VInt <$> o.
Proof.
  unfold field_opt_int. destruct (dict_lookup d k) as [[]|]; intros [= <-]; reflexivity.
Qed.

Lemma field_opt_str_inv d k o :
  field_opt_str d k = Some o -> dict_lookup d k = VStr <$> o.
Proof.
  unfold field_opt_str. destruct (dict_lookup d k) as [[]|]; intros [= <-]; reflexivity.
Qed.

Lemma read_partial_user_inv h v p :
  read_partial_user h v = Some p ->
  exists l d, v = VRef l /\ h !! l = Some (ODict d) /\
    dict_lookup d "user_id" = VInt <$> Partial.user_id p /\
    dict_lookup d "full_name" = VStr <$> Partial.full_name p /\
    dict_lookup d "email_domain" = VStr <$> Partial.email_domain p.
Proof.
  unfold read_partial_user. intros H.
  destruct (read_dict h v) as [d|] eqn:Hd; simpl in H; [|discriminate].
  destruct (field_opt_int d "user_id") as [i|] eqn:Hi; simpl in H; [|discriminate].
  destruct (field_opt_str d "full_name") as [n|] eqn:Hn; simpl in H; [|discriminate].
  destruct (field_opt_str d "email_domain") as [e|] eqn:He; simpl in H; [|discriminate].
  injection H as <-. simpl.
  apply read_dict_inv in Hd as (l & -> & Hl).
  eauto 10 using field_opt_int_inv, field_opt_str_inv.
Qed.

Lemma subscript_missing h ext lg ck tk l d k :
  h !! l = Some (ODict d) -> dict_lookup d k = None ->
  subscript (VRef l) k (mkWorld (h ++ ext) lg ck tk) =
  (Raise (KeyError k), mkWorld (h ++ ext) lg ck tk).
Proof.
  intros Hl Hk. unfold subscript. simpl.
  rewrite (lookup_app_l_Some _ _ _ _ Hl), Hk. reflexivity.
Qed.

(** The steps of one iteration of Validate on a record that is in the
    store the call found. *)
Ltac validate_steps :=
  repeat first
    [ rewrite bind_assoc
    | run_step
    | step_with ltac:(eapply get_old; eassumption)
    | step_with ltac:(eapply subscript_old; eassumption)
    | step_with ltac:(reflexivity) ].

Section ValidatePartial.
Variables (h : list obj) (lg : list (level * string))
          (ck : nat -> string) (tk : nat).
Variables (v : value) (p : Partial.user).
Hypothesis Hread : read_partial_user h v = Some p.

Lemma validate_partial_ok errs total a b :
  partial_raises p = false ->
  validate_user (VRef (length h + 1)) v
    (mkWorld (h ++ validation_store (length h + 0) errs total a b) lg ck tk) =
  (Ok tt,
   mkWorld (h ++ validation_store (length h + 0)
              (errs ++ map VStr
                 (partial_texts
                    (str_of (h ++ validation_store (length h + 0) errs total a b) v)
                    p))
              total
              (a + bool_Z (partial_valid p)) (b + bool_Z (negb (partial_valid p))))
           lg ck tk).
Proof.
  apply read_partial_user_inv in Hread as (l & d & -> & Hl & Hi & Hn & He).
  destruct p as [uid name dom]. simpl in Hi, Hn, He.
  unfold partial_raises, partial_valid, partial_texts, validate_user,
    missing_required, validation_store, validation_obj, increment.
  cbn [Partial.user_id Partial.full_name Partial.email_domain int_true str_true].
  intros Hraise.
  destruct uid as [n|], name as [s|], dom as [e|];
    cbn [int_true str_true negb andb] in *; try discriminate Hraise;
    simpl in Hi, Hn, He;
    repeat match goal with
           | |- context [Z.eqb ?n 0] => destruct (Z.eqb n 0) eqn:?
           | |- context [String.eqb ?s ""] => destruct (String.eqb s "") eqn:?
           end;
    cbn [negb andb] in *; try discriminate Hraise;
    repeat (validate_steps;
            repeat match goal with
                   | E : _ = _ |- _ => rewrite E
                   end;
            cbn [default negb andb]);
    try erewrite store_new by reflexivity;
    try match goal with
        | |- context [str_of ?hp (VRef ?r)] =>
            generalize (str_of hp (VRef r)); intros shown
        end;
    simpl; rewrite ?Z.add_0_r, ?app_nil_r, <- ?app_assoc; reflexivity.
Qed.

Lemma validate_partial_fail errs total a b :
  partial_raises p = true ->
  exists errs',
    validate_user (VRef (length h + 1)) v
      (mkWorld (h ++ validation_store (length h + 0) errs total a b) lg ck tk) =
    (Raise (KeyError "user_id"),
     mkWorld (h ++ validation_store (length h + 0) errs' total a b) lg ck tk).
Proof.
  apply read_partial_user_inv in Hread as (l & d & -> & Hl & Hi & Hn & He).
  destruct p as [uid name dom]. simpl in Hi, Hn, He.
  unfold partial_raises, validate_user, missing_required, validation_store,
    validation_obj.
  cbn [Partial.user_id Partial.email_domain str_true].
  intros Hraise. destruct uid as [n|]; [rewrite andb_false_r in Hraise; discriminate|].
  rewrite andb_true_r in Hraise. apply negb_true_iff in Hraise.
  simpl in Hi. eexists.
  destruct dom as [e|]; simpl in Hraise, He;
    [apply negb_false_iff in Hraise|];
    repeat (validate_steps; rewrite ?Hi, ?He, ?Hraise; cbn [default negb]);
    repeat rewrite bind_assoc;
    (erewrite bind_raise; [reflexivity|]);
    eapply subscript_missing; eassumption.
Qed.
End ValidatePartial.

Lemma validate_partial_loop h vs ps :
  Forall2 (fun v p => read_partial_user h v = Some p) vs ps ->
  Forall (fun p => partial_raises p = false) ps ->
  forall errs total a b lg ck tk,
  exists es,
    for_each vs (validate_user (VRef (length h + 1)))
      (mkWorld (h ++ validation_store (length h + 0) (map VStr errs) total a b) lg ck tk) =
    (Ok tt,
     mkWorld (h ++ validation_store (length h + 0) (map VStr es) total
                (a + Z.of_nat (length (List.filter partial_valid ps)))
                (b + Z.of_nat (length (List.filter (fun p => negb (partial_valid p)) ps))))
             lg ck tk).
Proof.
  induction 1 as [|v p vs ps Hv _ IH]; intros Hok errs total a b lg ck tk.
  - exists errs. simpl. rewrite !Z.add_0_r. reflexivity.
  - inversion Hok as [|? ? Hp Hps]; subst. simpl for_each.
    rewrite (bind_ok _ _ _ _ _
               (validate_partial_ok h lg ck tk v p Hv (map VStr errs) total a b Hp)).
    rewrite <- map_app.
    edestruct (IH Hps) as (es & ->). exists es.
    assert (Ha : (a + bool_Z (partial_valid p)
                  + Z.of_nat (length (List.filter partial_valid ps))
                  = a + Z.of_nat (length (List.filter partial_valid (p :: ps))))%Z).
    { cbn [List.filter]. destruct (partial_valid p); cbn [bool_Z length]; lia. }
    assert (Hb : (b + bool_Z (negb (partial_valid p))
                  + Z.of_nat (length (List.filter (fun p => negb (partial_valid p)) ps))
                  = b + Z.of_nat (length (List.filter (fun p => negb (partial_valid p))
                                            (p :: ps))))%Z).
    { cbn [List.filter]. destruct (partial_valid p); cbn [negb bool_Z length]; lia. }
    rewrite Ha, Hb. reflexivity.
Qed.

Lemma validate_partial_loop_fail h vs ps :
  Forall2 (fun v p => read_partial_user h v = Some p) vs ps ->
  Exists (fun p => partial_raises p = true) ps ->
  forall errs total a b lg ck tk,
  exists w',
    for_each vs (validate_user (VRef (length h + 1)))
      (mkWorld (h ++ validation_store (length h + 0) (map VStr errs) total a b) lg ck tk) =
    (Raise (KeyError "user_id"), w').
Proof.
  induction 1 as [|v p vs ps Hv _ IH]; intros Hex errs total a b lg ck tk.
  - inversion Hex.
  - simpl for_each. destruct (partial_raises p) eqn:Hp.
    + destruct (validate_partial_fail h lg ck tk v p Hv (map VStr errs) total a b Hp)
        as (errs' & Hfail).
      eexists. rewrite (bind_raise _ _ _ _ _ Hfail). reflexivity.
    + assert (Hex' : Exists (fun p => partial_raises p = true) ps).
      { inversion Hex; subst; [congruence|assumption]. }
      rewrite (bind_ok _ _ _ _ _
                 (validate_partial_ok h lg ck tk v p Hv (map VStr errs) total a b Hp)).
      rewrite <- map_app. apply IH. exact Hex'.
Qed.

Lemma read_partial_data_inv h tdata ps :
  read_partial_data h tdata = Some ps ->
  exists l d lc vs, tdata = VRef l /\ h !! l = Some (ODict d) /\
    dict_lookup d "transformed_users" = Some (VRef lc) /\
    h !! lc = Some (OList vs) /\
    Forall2 (fun v p => read_partial_user h v = Some p) vs ps.
Proof.
  unfold read_partial_data. intros H.
  destruct (read_collection h tdata "transformed_users") as [vs|] eqn:Hc;
    simpl in H; [|discriminate].
  apply read_collection_inv in Hc as (l & d & lc & -> & Hl & Hd & Hlc).
  apply mapM_Some in H. eauto 10.
Qed.

(** X5: Validate takes records that lack fields.  A field that is absent
    counts like one that is false: the record is invalid.  As long as no
    record lacks both its identifier and its email domain, Validate
    returns, total_records is the number of records, and the valid ones
    are those with a non-zero identifier, a non-empty name and a
    non-empty domain. *)
Theorem validate_data_absent_fields (w : world) (tdata : value)
  (ps : list Partial.user)
  (Hread : read_partial_data (heap w) tdata = Some ps)
  (Hok : Forall (fun p => Partial.user_id p = None ->
                          exists e, Partial.email_domain p = Some e /\ e <> "") ps) :
  exists out w' r,
    validate_data [tdata] w = (Ok out, w') /\
    read_validation_results (heap w') out = Some r /\
    Data.total_records r = Z.of_nat (length ps) /\
    Data.valid_records r
      = Z.of_nat (length (List.filter
          (fun p => match Partial.user_id p, Partial.full_name p, Partial.email_domain p with
                    | Some n, Some s, Some e =>
                        negb (Z.eqb n 0) && negb (String.eqb s "") && negb (String.eqb e "")
                    | _, _, _ => false
                    end) ps)) /\
    (Data.valid_records r + Data.invalid_records r)%Z = Data.total_records r.
Proof.
  destruct w as [h lg ck tk]. simpl in *.
  apply read_partial_data_inv in Hread as (l & d & lc & vs & -> & Hl & Hd & Hlc & Hvs).
  assert (Hno : Forall (fun p => partial_raises p = false) ps).
  { eapply Forall_impl; [exact Hok|]. intros [uid name dom] Hp. unfold partial_raises.
    simpl in *. destruct uid; [apply andb_false_r|].
    destruct (Hp eq_refl) as (e & -> & Hne). simpl.
    apply String.eqb_neq in Hne. rewrite Hne. reflexivity. }
  destruct (validate_partial_loop h vs ps Hvs Hno [] (VInt (Z.of_nat (length vs)))
              0%Z 0%Z (lg ++ [(INFO, "Starting data validation...")]) ck tk)
    as (es & Hloop).
  eexists _, _, _. split.
  - rewrite (world_nil h lg). unfold validate_data.
    run_step.
    step_with ltac:(eapply subscript_old; eassumption).
    step_with ltac:(eapply len_old; eassumption).
    run_step. run_step.
    step_with ltac:(eapply iterate_old; eassumption).
    step_with ltac:(exact Hloop).
    unfold validation_store, validation_obj.
    repeat run_step. apply ret_run.
  - cbn [heap].
    change [OList (map VStr es);
            ODict [("total_records", VInt (Z.of_nat (length vs)));
                   ("valid_records", VInt (0 + Z.of_nat (length (List.filter partial_valid ps))));
                   ("invalid_records",
                    VInt (0 + Z.of_nat (length (List.filter
                                 (fun p => negb (partial_valid p)) ps))));
                   ("validation_errors", VRef (length h + 0))]]
      with (validation_store (length h + 0) (map VStr es) (VInt (Z.of_nat (length vs)))
              (0 + Z.of_nat (length (List.filter partial_valid ps)))
              (0 + Z.of_nat (length (List.filter (fun p => negb (partial_valid p)) ps)))).
    split; [apply read_validation_store|]. simpl.
    rewrite (Forall2_length _ _ _ Hvs).
    split; [reflexivity|]. split.
    + rewrite Z.add_0_l. do 2 f_equal. apply List.filter_ext.
      intros [[n|] [s|] [e|]]; unfold partial_valid; simpl;
        rewrite ?andb_false_r; reflexivity.
    + rewrite !Z.add_0_l. clear.
      induction ps as [|p ps IH]; [reflexivity|].
      cbn [List.filter]. destruct (partial_valid p); cbn [negb length]; lia.
Qed.

(** X6: a record that has no 'user_id' key and whose email domain is
    absent or empty makes Validate raise KeyError for 'user_id': the
    second message subscripts the key that the first test found absent.
    Validate then returns no results, whatever the other records are. *)
Theorem validate_data_key_error (w : world) (tdata : value)
  (ps : list Partial.user)
  (Hread : read_partial_data (heap w) tdata = Some ps)
  (Hbad : Exists (fun p => Partial.user_id p = None /\
                           (Partial.email_domain p = None \/
                            Partial.email_domain p = Some "")) ps) :
  exists w', validate_data [tdata] w = (Raise (KeyError "user_id"), w').
Proof.
  destruct w as [h lg ck tk]. simpl in *.
  apply read_partial_data_inv in Hread as (l & d & lc & vs & -> & Hl & Hd & Hlc & Hvs).
  assert (Hex : Exists (fun p => partial_raises p = true) ps).
  { eapply Exists_impl; [exact Hbad|]. intros [uid name dom] [Hu Hd']. simpl in *.
    subst uid. unfold partial_raises. simpl. destruct Hd' as [-> | ->]; reflexivity. }
  destruct (validate_partial_loop_fail h vs ps Hvs Hex [] (VInt (Z.of_nat (length vs)))
              0%Z 0%Z (lg ++ [(INFO, "Starting data validation...")]) ck tk)
    as (w' & Hloop).
  exists w'. rewrite (world_nil h lg). unfold validate_data.
  run_step.
  step_with ltac:(eapply subscript_old; eassumption).
  step_with ltac:(eapply len_old; eassumption).
  run_step. run_step.
  step_with ltac:(eapply iterate_old; eassumption).
  rewrite (bind_raise _ _ _ _ _ Hloop). reflexivity.
Qed.

(** ** Load: the list of errors is read only when a record is invalid *)

(** X10: when invalid_records is positive and the validation results have
    no 'validation_errors' key, Load raises KeyError for that key after
    it has logged the count of invalid records; it loads nothing: no
    summary is allocated and the clock is not read. *)
Theorem load_data_missing_errors (w : world) (tdata vres : value)
  (d : list (string * value)) (b : Z)
  (Hd : read_dict (heap w) vres = Some d)
  (Hb : dict_lookup d "invalid_records" = Some (VInt b))
  (Hpos : (0 < b)%Z)
  (He : dict_lookup d "validation_errors" = None) :
  load_data [tdata; vres] w =
  (Raise (KeyError "validation_errors"),
   mkWorld (heap w)
     (log w ++ [(INFO, "Starting data loading...");
                (WARNING, "Found " +:+ Str.of_Z b +:+ " invalid records")])
     (clock w) (ticks w)).
Proof.
  destruct w as [h lg ck tk]. simpl in *.
  apply read_dict_inv in Hd as (l & -> & Hl).
  rewrite (world_nil h lg). unfold load_data.
  run_step.
  step_with ltac:(eapply subscript_old; eassumption).
  step_with ltac:(reflexivity).
  apply Z.ltb_lt in Hpos. rewrite Hpos.
  rewrite bind_assoc.
  step_with ltac:(eapply subscript_old; eassumption).
  rewrite bind_assoc. run_step. rewrite bind_assoc. run_step. rewrite bind_assoc.
  erewrite bind_raise by (eapply subscript_missing; eassumption).
  rewrite <- app_assoc, !app_nil_r. reflexivity.
Qed.

(** X11: when invalid_records is not positive, Load does not read the
    list of errors: it returns its summary, with one log line before and
    one after and no warning, also for validation results that have
    nothing but the 'invalid_records' key. *)
Theorem load_data_without_invalid (w : world) (tdata vres : value)
  (d : list (string * value)) (b : Z) (vs : list value)
  (Hd : read_dict (heap w) vres = Some d)
  (Hb : dict_lookup d "invalid_records" = Some (VInt b))
  (Hle : (b <= 0)%Z)
  (Ht : read_collection (heap w) tdata "transformed_users" = Some vs) :
  exists out w',
    load_data [tdata; vres] w = (Ok out, w') /\
    read_loading_summary (heap w') out
      = Some (Data.mk_loading_summary (Z.of_nat (length vs)) (clock w (ticks w))
                                      "completed") /\
    log w' = log w ++ [(INFO, "Starting data loading...");
                       (INFO, "Successfully loaded " +:+ Str.of_Z (Z.of_nat (length vs))
                              +:+ " records")].
Proof.
  destruct w as [h lg ck tk]. simpl in *.
  apply read_dict_inv in Hd as (l & -> & Hl).
  apply read_collection_inv in Ht as (lt & dt & lc & -> & Hlt & Hdt & Hlc).
  eexists _, _. split.
  - rewrite (world_nil h lg). unfold load_data.
    run_step.
    step_with ltac:(eapply subscript_old; eassumption).
    step_with ltac:(reflexivity).
    apply Z.ltb_ge in Hle. rewrite Hle.
    run_step.
    step_with ltac:(eapply subscript_old; eassumption).
    step_with ltac:(eapply len_old; eassumption).
    run_step. run_step.
    step_with ltac:(eapply (len_old h [_]); eassumption).
    run_step. run_step. apply ret_run.
  - cbn [heap log]. split; [apply read_summary_obj|].
    rewrite <- app_assoc. reflexivity.
Qed.

(** ** Validate: the text and the order of the messages *)

(** The text of a value does not depend on the fuel, once there is
    enough of it: each nested container takes one unit and joins the
    containers being printed, which are distinct objects of the store. *)

Lemma seen_bound (n : nat) (seen : list nat) :
  NoDup seen -> Forall (fun l => l < n) seen -> length seen <= n.
Proof.
  intros Hnd Hlt.
  assert (Hsub : seen ⊆+ seq 0 n).
  { apply NoDup_submseteq; [exact Hnd|].
    intros l Hl. apply elem_of_seq.
    rewrite Forall_forall in Hlt. specialize (Hlt l Hl). lia. }
  apply submseteq_length in Hsub. rewrite length_seq in Hsub. exact Hsub.
Qed.

Lemma seen_spec (l : nat) (seen : list nat) :
  existsb (Nat.eqb l) seen = false -> l ∉ seen.
Proof.
  intros Hf Hin. apply list_elem_of_In in Hin.
  assert (existsb (Nat.eqb l) seen = true) as Ht.
  { apply existsb_exists. exists l. split; [exact Hin|apply Nat.eqb_refl]. }
  congruence.
Qed.

Lemma repr_fuel (h : list obj) :
  forall f f' seen v,
    NoDup seen -> Forall (fun l => l < length h) seen ->
    length h < f + length seen -> length h < f' + length seen ->
    repr f h seen v = repr f' h seen v.
Proof.
  induction f as [|f IH]; intros f' seen v Hnd Hlt Hf Hf'.
  - pose proof (seen_bound _ _ Hnd Hlt). lia.
  - destruct f' as [|f']; [pose proof (seen_bound _ _ Hnd Hlt); lia|].
    destruct v as [| [] | | |l]; try reflexivity. simpl.
    destruct (h !! l) as [[d|xs]|] eqn:Hl; [| |reflexivity].
    + destruct (existsb (Nat.eqb l) seen) eqn:Hs; [reflexivity|].
      do 3 f_equal. apply map_ext. intros kv. do 2 f_equal.
      apply IH; simpl; try lia.
      * constructor; [apply seen_spec; exact Hs|exact Hnd].
      * constructor; [eapply lookup_lt_Some; exact Hl|exact Hlt].
    + destruct (existsb (Nat.eqb l) seen) eqn:Hs; [reflexivity|].
      do 3 f_equal. apply map_ext. intros x.
      apply IH; simpl; try lia.
      * constructor; [apply seen_spec; exact Hs|exact Hnd].
      * constructor; [eapply lookup_lt_Some; exact Hl|exact Hlt].
Qed.

Lemma closed_lookup (h : list obj) (l : nat) (o : obj) :
  closed_store h = true -> h !! l = Some o -> closed_obj (length h) o = true.
Proof.
  unfold closed_store. intros Hc Hl.
  rewrite forallb_forall in Hc. apply Hc.
  apply list_elem_of_In, list_elem_of_lookup. eauto.
Qed.

(** In a closed store the text of a value of the store is not changed by
    objects allocated later. *)
Lemma repr_extend (h ext : list obj) :
  closed_store h = true ->
  forall f seen v,
    valid_value (length h) v = true ->
    repr f (h ++ ext) seen v = repr f h seen v.
Proof.
  intros Hc. induction f as [|f IH]; intros seen v Hv.
  - destruct v as [| [] | | |l]; reflexivity.
  - destruct v as [| [] | | |l]; try reflexivity. simpl in Hv |- *.
    apply Nat.ltb_lt in Hv. rewrite (lookup_app_l h ext l Hv).
    destruct (h !! l) as [[d|xs]|] eqn:Hl; [| |reflexivity].
    + pose proof (closed_lookup h l _ Hc Hl) as Ho. simpl in Ho.
      rewrite forallb_forall in Ho.
      destruct (existsb (Nat.eqb l) seen); [reflexivity|].
      do 3 f_equal. apply map_ext_in. intros kv Hkv. do 2 f_equal.
      apply IH. apply Ho. exact Hkv.
    + pose proof (closed_lookup h l _ Hc Hl) as Ho. simpl in Ho.
      rewrite forallb_forall in Ho.
      destruct (existsb (Nat.eqb l) seen); [reflexivity|].
      do 3 f_equal. apply map_ext_in. intros x Hx.
      apply IH. apply Ho. exact Hx.
Qed.

Lemma str_of_stable (h ext : list obj) (v : value) :
  closed_store h = true -> valid_value (length h) v = true ->
  str_of (h ++ ext) v = str_of h v.
Proof.
  intros Hc Hv. destruct v as [| [] | | |l]; try reflexivity.
  unfold str_of. rewrite (repr_extend h ext Hc _ _ _ Hv).
  apply repr_fuel; [constructor|constructor| |]; rewrite ?length_app; simpl; lia.
Qed.

Lemma record_messages_eq h v t :
  record_messages h v t = messages (str_of h v) t.
Proof. reflexivity. Qed.

Lemma validate_loop_texts h vs ts :
  closed_store h = true ->
  Forall2 (fun v t => read_transformed_user h v = Some t) vs ts ->
  forall errs total a b lg ck tk,
    for_each vs (validate_user (VRef (length h + 1)))
      (mkWorld (h ++ validation_store (length h + 0) errs total a b) lg ck tk) =
    (Ok tt,
     mkWorld (h ++ validation_store (length h + 0)
                (errs ++ map VStr (concat (zip_with (record_messages h) vs ts)))
                total (a + count_valid ts) (b + count_invalid ts))
             lg ck tk).
Proof.
  intros Hc. induction 1 as [|v t vs ts Hv _ IH]; intros errs total a b lg ck tk.
  - simpl. unfold count_valid, count_invalid. simpl.
    rewrite app_nil_r, !Z.add_0_r. reflexivity.
  - simpl for_each.
    rewrite (bind_ok _ _ _ _ _ (validate_user_run h lg ck tk v t Hv errs total a b)).
    rewrite IH.
    assert (Hvalid : valid_value (length h) v = true).
    { apply read_transformed_user_inv in Hv as (l & d & -> & Hl & _).
      simpl. apply Nat.ltb_lt. eapply lookup_lt_Some. exact Hl. }
    rewrite (str_of_stable h _ v Hc Hvalid).
    rewrite count_valid_cons, count_invalid_cons. simpl zip_with. simpl concat.
    rewrite record_messages_eq, map_app, <- app_assoc, !Z.add_assoc. reflexivity.
Qed.

(** X13: in a closed store, the messages Validate returns follow the
    order of the records; a record adds first, when its identifier is 0
    or its name is empty, "Missing required fields for user: " followed
    by the text of the record's dictionary (its keys and values, as
    [str] prints it in the store the call found), then, when its email
    domain is empty, "Missing email domain for user: " followed by its
    identifier in decimal. *)
Theorem validate_data_messages (w : world) (tdata : value) (vs : list value)
  (ts : list Data.transformed_user)
  (Hclosed : closed_store (heap w) = true)
  (Hc : read_collection (heap w) tdata "transformed_users" = Some vs)
  (Hts : mapM (read_transformed_user (heap w)) vs = Some ts) :
  exists out w' r,
    validate_data [tdata] w = (Ok out, w') /\
    read_validation_results (heap w') out = Some r /\
    Data.validation_errors r =
      concat (zip_with (fun v t =>
          (if Z.eqb (Data.user_id t) 0 || String.eqb (Data.full_name t) ""
           then ["Missing required fields for user: " +:+ str_of (heap w) v]
           else [])
          ++ (if String.eqb (Data.email_domain t) ""
              then ["Missing email domain for user: " +:+ Str.of_Z (Data.user_id t)]
              else []))
        vs ts).
Proof.
  destruct w as [h lg ck tk]. simpl in *.
  apply read_collection_inv in Hc as (l & d & lc & -> & Hl & Hd & Hlc).
  apply mapM_Some in Hts.
  eexists _, _, _. split; [|split].
  - rewrite (world_nil h lg). unfold validate_data.
    run_step.
    step_with ltac:(eapply subscript_old; eassumption).
    step_with ltac:(eapply len_old; eassumption).
    run_step. run_step.
    step_with ltac:(eapply iterate_old; eassumption).
    step_with ltac:(eapply validate_loop_texts; eassumption).
    unfold validation_store, validation_obj.
    repeat run_step. apply ret_run.
  - cbn [heap app].
    apply (read_validation_store h
             (concat (zip_with (record_messages h) vs ts))
             (Z.of_nat (length vs)) (0 + count_valid ts) (0 + count_invalid ts)).
  - reflexivity.
Qed.

(** * The further properties on concrete stores *)

Lemma transform_data_records_witness :
  read_raw_data (heap third_bad_world) (VRef 7)
    = Some [Data.mk_raw_user 1 "Ann" "ann@example.com"; Data.mk_raw_user 0 "" "bo@"] /\
  exists out w' ts,
    transform_data [VRef 7] third_bad_world = (Ok out, w') /\
    read_transformed_data (heap w') out = Some ts /\
    length ts = 2%nat /\
    (forall i u,
       [Data.mk_raw_user 1 "Ann" "ann@example.com"; Data.mk_raw_user 0 "" "bo@"] !! i
         = Some u ->
       exists t, ts !! i = Some t /\
                 Data.user_id t = Data.id u /\
                 Data.processed_at t = sample_clock (0 + i)%nat) /\
    ticks w' = 2%nat /\
    clock w' = sample_clock.
Proof.
  split; [vm_compute; reflexivity|].
  apply (transform_data_records third_bad_world (VRef 7)
           [Data.mk_raw_user 1 "Ann" "ann@example.com"; Data.mk_raw_user 0 "" "bo@"]).
  - vm_compute; reflexivity.
  - repeat constructor.
Defined.

Lemma transform_data_normalised_witness :
  read_raw_data (heap third_bad_world) (VRef 7)
    = Some [Data.mk_raw_user 1 "Ann" "ann@example.com"; Data.mk_raw_user 0 "" "bo@"] /\
  exists out w' ts,
    transform_data [VRef 7] third_bad_world = (Ok out, w') /\
    read_transformed_data (heap w') out = Some ts /\
    Forall2 (fun u t =>
        Str.contains "@" (Data.email_domain t) = false /\
        (ascii_text (Data.name u) = true ->
         ascii_text (Data.full_name t) = true /\
         Str.upper (Data.full_name t) = Data.full_name t /\
         String.length (Data.full_name t) = String.length (Data.name u)))
      [Data.mk_raw_user 1 "Ann" "ann@example.com"; Data.mk_raw_user 0 "" "bo@"] ts.
Proof.
  split; [vm_compute; reflexivity|].
  apply (transform_data_normalised third_bad_world (VRef 7)
           [Data.mk_raw_user 1 "Ann" "ann@example.com"; Data.mk_raw_user 0 "" "bo@"]).
  - vm_compute; reflexivity.
  - repeat constructor.
Defined.


Lemma validate_data_errors_witness :
  read_transformed_data (heap (world_of_transformed falsy_records)) (VRef 5)
    = Some falsy_records /\
  exists out w' r,
    validate_data [VRef 5] (world_of_transformed falsy_records) = (Ok out, w') /\
    read_validation_results (heap w') out = Some r /\
    (Data.invalid_records r <= Z.of_nat (length (Data.validation_errors r))
     <= 2 * Data.invalid_records r)%Z /\
    (Data.validation_errors r = [] <-> Data.invalid_records r = 0%Z) /\
    (Data.invalid_records r = 0%Z <-> Forall (fun t => is_valid t = true) falsy_records).
Proof.
  split; [vm_compute; reflexivity|].
  apply (validate_data_errors (world_of_transformed falsy_records) (VRef 5)
           falsy_records).
  vm_compute; reflexivity.
Defined.

Lemma transform_then_validate_witness :
  read_raw_data (heap third_bad_world) (VRef 7)
    = Some [Data.mk_raw_user 1 "Ann" "ann@example.com"; Data.mk_raw_user 0 "" "bo@"] /\
  exists t w1 v w2 r,
    transform_data [VRef 7] third_bad_world = (Ok t, w1) /\
    validate_data [t] w1 = (Ok v, w2) /\
    read_validation_results (heap w2) v = Some r /\
    Data.total_records r = 2%Z /\
    Data.invalid_records r = 1%Z.
Proof.
  split; [vm_compute; reflexivity|].
  apply (transform_then_validate third_bad_world (VRef 7)
           [Data.mk_raw_user 1 "Ann" "ann@example.com"; Data.mk_raw_user 0 "" "bo@"]).
  - vm_compute; reflexivity.
  - repeat constructor.
Defined.

Lemma pipeline_completes_witness :
  read_raw_data (heap third_bad_world) (VRef 7)
    = Some [Data.mk_raw_user 1 "Ann" "ann@example.com"; Data.mk_raw_user 0 "" "bo@"] /\
  exists t v s w1 w2 w3 w4 r ls,
    transform_data [VRef 7] third_bad_world = (Ok t, w1) /\
    validate_data [t] w1 = (Ok v, w2) /\
    load_data [t; v] w2 = (Ok s, w3) /\
    send_notification [s; v] w3
      = (Ok (VStr "Notification sent successfully"), w4) /\
    read_validation_results (heap w4) v = Some r /\
    read_loading_summary (heap w4) s = Some ls /\
    Data.total_records r = 2%Z /\
    Data.records_processed ls = 2%Z /\
    Data.load_timestamp ls = sample_clock 2 /\
    Data.status ls = "completed" /\
    heap third_bad_world `prefix_of` heap w4.
Proof.
  split; [vm_compute; reflexivity|].
  apply (pipeline_completes third_bad_world (VRef 7)
           [Data.mk_raw_user 1 "Ann" "ann@example.com"; Data.mk_raw_user 0 "" "bo@"]).
  - vm_compute; reflexivity.
  - repeat constructor.
Defined.

Lemma send_notification_message_witness :
  read_loading_summary (heap sample_world) (VRef 12)
    = Some (Data.mk_loading_summary 3 (sample_clock 3) "completed") /\
  read_validation_results (heap sample_world) (VRef 11)
    = Some (Data.mk_validation_results 3 3 0 []) /\
  send_notification [VRef 12; VRef 11] sample_world =
  (Ok (VStr "Notification sent successfully"),
   mkWorld (heap sample_world)
     (log sample_world ++
      [(INFO, "Sending completion notification...");
       (INFO, notification_message "3" "3" "0" (sample_clock 3) "completed")])
     (clock sample_world) (ticks sample_world)).
Proof.
  split; [vm_compute; reflexivity|]. split; [vm_compute; reflexivity|].
  apply (send_notification_message sample_world (VRef 12) (VRef 11)
           (Data.mk_loading_summary 3 (sample_clock 3) "completed")
           (Data.mk_validation_results 3 3 0 [])).
  - vm_compute; reflexivity.
  - vm_compute; reflexivity.
Defined.

Lemma transform_data_stops_witness :
  read_collection (heap third_bad_world) (VRef 5) "users"
    = Some ([VRef 0; VRef 1] ++ VRef 2 :: [VRef 3]) /\
  read_raw_user (heap third_bad_world) (VRef 2)
    = Some (Data.mk_raw_user 3 "Cy" "cy.example.com") /\
  exists w',
    transform_data [VRef 5] third_bad_world = (Raise IndexError, w') /\
    ticks w' = 2%nat /\
    clock w' = sample_clock /\
    log w' = [(INFO, "Starting data transformation...")] /\
    heap third_bad_world `prefix_of` heap w'.
Proof.
  split; [vm_compute; reflexivity|]. split; [vm_compute; reflexivity|].
  apply (transform_data_stops third_bad_world (VRef 5) [VRef 0; VRef 1] [VRef 3]
           (VRef 2)
           [Data.mk_raw_user 1 "Ann" "ann@example.com"; Data.mk_raw_user 0 "" "bo@"]
           (Data.mk_raw_user 3 "Cy" "cy.example.com")).
  - vm_compute; reflexivity.
  - vm_compute; reflexivity.
  - repeat constructor.
  - vm_compute; reflexivity.
  - reflexivity.
Defined.

Lemma validate_data_absent_fields_witness :
  read_partial_data (heap absent_world) (VRef 4)
    = Some [Partial.mk_user (Some 1%Z) None (Some "example.com");
            Partial.mk_user None (Some "BO") (Some "example.com")] /\
  exists out w' r,
    validate_data [VRef 4] absent_world = (Ok out, w') /\
    read_validation_results (heap w') out = Some r /\
    Data.total_records r = 2%Z /\
    Data.valid_records r = 0%Z /\
    (Data.valid_records r + Data.invalid_records r)%Z = Data.total_records r.
Proof.
  split; [vm_compute; reflexivity|].
  apply (validate_data_absent_fields absent_world (VRef 4)
           [Partial.mk_user (Some 1%Z) None (Some "example.com");
            Partial.mk_user None (Some "BO") (Some "example.com")]).
  - vm_compute; reflexivity.
  - repeat constructor; simpl; intros H; try discriminate H.
    exists "example.com". split; [reflexivity|discriminate].
Defined.

Lemma validate_data_key_error_witness :
  read_partial_data (heap absent_world) (VRef 6)
    = Some [Partial.mk_user (Some 1%Z) None (Some "example.com");
            Partial.mk_user None (Some "BO") (Some "example.com");
            Partial.mk_user None (Some "CY") None] /\
  exists w', validate_data [VRef 6] absent_world = (Raise (KeyError "user_id"), w').
Proof.
  split; [vm_compute; reflexivity|].
  apply (validate_data_key_error absent_world (VRef 6)
           [Partial.mk_user (Some 1%Z) None (Some "example.com");
            Partial.mk_user None (Some "BO") (Some "example.com");
            Partial.mk_user None (Some "CY") None]).
  - vm_compute; reflexivity.
  - apply Exists_cons_tl, Exists_cons_tl, Exists_cons_hd. simpl. auto.
Defined.

Lemma load_data_missing_errors_witness :
  read_dict (heap no_errors_key_world) (VRef 1) = Some [("invalid_records", VInt 2)] /\
  load_data [VRef 4; VRef 1] no_errors_key_world =
  (Raise (KeyError "validation_errors"),
   mkWorld (heap no_errors_key_world)
     (log no_errors_key_world
      ++ [(INFO, "Starting data loading...");
          (WARNING, "Found " +:+ Str.of_Z 2 +:+ " invalid records")])
     (clock no_errors_key_world) (ticks no_errors_key_world)).
Proof.
  split; [reflexivity|].
  apply (load_data_missing_errors no_errors_key_world (VRef 4) (VRef 1)
           [("invalid_records", VInt 2)] 2).
  - reflexivity.
  - reflexivity.
  - lia.
  - reflexivity.
Defined.

Lemma load_data_without_invalid_witness :
  read_dict (heap no_errors_key_world) (VRef 2) = Some [("invalid_records", VInt 0)] /\
  read_collection (heap no_errors_key_world) (VRef 4) "transformed_users"
    = Some [VInt 10; VInt 20] /\
  exists out w',
    load_data [VRef 4; VRef 2] no_errors_key_world = (Ok out, w') /\
    read_loading_summary (heap w') out
      = Some (Data.mk_loading_summary 2 (sample_clock 0) "completed") /\
    log w' = [(INFO, "Starting data loading...");
              (INFO, "Successfully loaded " +:+ Str.of_Z 2 +:+ " records")].
Proof.
  split; [reflexivity|]. split; [reflexivity|].
  apply (load_data_without_invalid no_errors_key_world (VRef 4) (VRef 2)
           [("invalid_records", VInt 0)] 0 [VInt 10; VInt 20]).
  - reflexivity.
  - reflexivity.
  - lia.
  - reflexivity.
Defined.

Lemma validate_data_messages_witness :
  closed_store (heap (world_of_transformed falsy_records)) = true /\
  read_collection (heap (world_of_transformed falsy_records)) (VRef 5)
    "transformed_users" = Some [VRef 0; VRef 1; VRef 2; VRef 3] /\
  exists out w' r,
    validate_data [VRef 5] (world_of_transformed falsy_records) = (Ok out, w') /\
    read_validation_results (heap w') out = Some r /\
    Data.validation_errors r =
      concat (zip_with (fun v t =>
          (if Z.eqb (Data.user_id t) 0 || String.eqb (Data.full_name t) ""
           then ["Missing required fields for user: "
                 +:+ str_of (heap (world_of_transformed falsy_records)) v]
           else [])
          ++ (if String.eqb (Data.email_domain t) ""
              then ["Missing email domain for user: " +:+ Str.of_Z (Data.user_id t)]
              else []))
        [VRef 0; VRef 1; VRef 2; VRef 3] falsy_records).
Proof.
  split; [vm_compute; reflexivity|]. split; [vm_compute; reflexivity|].
  apply (validate_data_messages (world_of_transformed falsy_records) (VRef 5)
           [VRef 0; VRef 1; VRef 2; VRef 3] falsy_records).
  - vm_compute; reflexivity.
  - vm_compute; reflexivity.
  - vm_compute; reflexivity.
Defined.
